(** * FZ-Manager: the client core of [fz_manager/factorio_zone_api.py]

    A shallow embedding of [FZClient]: the receive loop of [connect] with its
    sequence-number check and event dispatch, [login], and the REST
    operations on mods and save slots, followed by the properties of the
    specification that concern them, and then by further properties of the
    same code: the listeners, the instance operations and [wait_sync]
    included.

    Conventions of the embedding.
    - Decoded JSON is [pyval]; JSON numbers are integers here (no floats,
      so no [NaN]): what is proved of sequence numbers is proved of integer
      ones.
    - The client object [self] and the ordered list of external effects form
      the [World]; a method is a function [World -> result * World], so the
      state an exception leaves behind is part of the outcome.
    - Everything outside the process (the JSON decoder, the regular
      expression engine, the HTTP client and its multipart encoder, the
      file system, the caller's callbacks) is an oracle of [Env]; an oracle
      sees the effects so far.
    - The coroutines are run without interleaving: no other task writes
      [self] while a method is suspended in a listener. *)

From Stdlib Require Import ZArith String List Bool Lia DecimalString Sorted.
From stdpp Require Import gmap strings.
Import ListNotations.

Set Warnings "-register-all".
Local Open Scope string_scope.
Local Open Scope Z_scope.

(** ** Python values *)

Inductive pyval : Type :=
| PNone
| PBool (b : bool)
| PInt (z : Z)
| PStr (s : string)
| PList (l : list pyval)
| PDict (d : gmap string pyval).

(** Keys of a Python dict: the hashable values. [True] and [1] are the
    same key, as are [False] and [0]. *)
Inductive pykey : Type :=
| KNone
| KInt (z : Z)
| KStr (s : string).

#[global] Instance pykey_eq_dec : EqDecision pykey.
Proof. solve_decision. Defined.

#[global] Instance pykey_countable : Countable pykey.
Proof.
  refine (inj_countable'
            (fun k => match k with
                      | KNone => inl tt
                      | KInt z => inr (inl z)
                      | KStr s => inr (inr s)
                      end)
            (fun x => match x with
                      | inl _ => KNone
                      | inr (inl z) => KInt z
                      | inr (inr s) => KStr s
                      end) _).
  intros []; reflexivity.
Defined.

Inductive exn : Type :=
| JSONDecodeError (doc : string)
| AttributeError
| KeyError (key : string)
| TypeError
| OSError (path : string)
| ConnectionError
| Exception (msg : string).

Definition hash_key (v : pyval) : option pykey :=
  match v with
  | PNone => Some KNone
  | PBool b => Some (KInt (Z.b2z b))
  | PInt z => Some (KInt z)
  | PStr s => Some (KStr s)
  | PList _ | PDict _ => None
  end.

(** Truth value of an object in [if v:]. *)
Definition truthy (v : pyval) : bool :=
  match v with
  | PNone => false
  | PBool b => b
  | PInt z => negb (z =? 0)
  | PStr s => negb (String.eqb s "")
  | PList l => match l with [] => false | _ :: _ => true end
  | PDict d => negb (bool_decide (dom d = ∅))
  end.

(** [v == 'literal']. *)
Definition py_eq_str (v : pyval) (s : string) : bool :=
  match v with
  | PStr t => String.eqb t s
  | _ => false
  end.

(** The integer an [int] or [bool] counts as in a comparison. *)
Definition int_value (v : pyval) : option Z :=
  match v with
  | PInt z => Some z
  | PBool b => Some (Z.b2z b)
  | _ => None
  end.

(** The same, for a value known to be one of the two: what
    [last_handled_message_num] compares as once the value is stored. *)
Definition as_int (v : pyval) : Z :=
  match int_value v with
  | Some z => z
  | None => 0
  end.

(** [str(n)] for an integer. *)
Definition py_str (n : Z) : string := NilZero.string_of_int (Z.to_int n).

(** [d.get(k)]. *)
Definition dict_get (d : gmap string pyval) (k : string) : pyval :=
  match d !! k with
  | Some v => v
  | None => PNone
  end.

(** ** The client object *)

Inductive ServerStatus : Type := OFFLINE | STARTING | STOPPING | RUNNING.

(** A callable handed in by the caller (a listener, a progress callback),
    known by its identity. *)
Definition callable : Type := nat.

Record FZClient : Type := {
  socket : option string;
  user_token : pyval;
  visit_secret : pyval;
  regions : pyval;
  versions : pyval;
  slots : gmap pykey pyval;
  saves : pyval;
  mods : pyval;
  running : bool;
  launch_id : pyval;
  region : pyval;
  server_address : pyval;
  server_status : ServerStatus;
  logs_listeners : list callable;
  message_listeners : list callable;
  mods_sync : bool;
  saves_sync : bool;
  last_handled_message_num : Z
}.

(** [FZClient.__init__]. *)
Definition init (token : pyval) : FZClient :=
  {| socket := None; user_token := token; visit_secret := PNone;
     regions := PDict ∅; versions := PDict ∅; slots := ∅; saves := PDict ∅;
     mods := PList []; running := false; launch_id := PNone; region := PNone;
     server_address := PNone; server_status := OFFLINE;
     logs_listeners := []; message_listeners := [];
     mods_sync := false; saves_sync := false;
     last_handled_message_num := -1 |}.

(** Attribute assignment [self.f = v], one function per attribute. *)

Definition set_socket (v : option string) (c : FZClient) : FZClient :=
  {| socket := v; user_token := user_token c; visit_secret := visit_secret c;
     regions := regions c; versions := versions c; slots := slots c; saves := saves c;
     mods := mods c; running := running c; launch_id := launch_id c; region := region c;
     server_address := server_address c; server_status := server_status c;
     logs_listeners := logs_listeners c; message_listeners := message_listeners c;
     mods_sync := mods_sync c; saves_sync := saves_sync c;
     last_handled_message_num := last_handled_message_num c |}.

Definition set_user_token (v : pyval) (c : FZClient) : FZClient :=
  {| socket := socket c; user_token := v; visit_secret := visit_secret c;
     regions := regions c; versions := versions c; slots := slots c; saves := saves c;
     mods := mods c; running := running c; launch_id := launch_id c; region := region c;
     server_address := server_address c; server_status := server_status c;
     logs_listeners := logs_listeners c; message_listeners := message_listeners c;
     mods_sync := mods_sync c; saves_sync := saves_sync c;
     last_handled_message_num := last_handled_message_num c |}.

Definition set_visit_secret (v : pyval) (c : FZClient) : FZClient :=
  {| socket := socket c; user_token := user_token c; visit_secret := v;
     regions := regions c; versions := versions c; slots := slots c; saves := saves c;
     mods := mods c; running := running c; launch_id := launch_id c; region := region c;
     server_address := server_address c; server_status := server_status c;
     logs_listeners := logs_listeners c; message_listeners := message_listeners c;
     mods_sync := mods_sync c; saves_sync := saves_sync c;
     last_handled_message_num := last_handled_message_num c |}.

Definition set_regions (v : pyval) (c : FZClient) : FZClient :=
  {| socket := socket c; user_token := user_token c; visit_secret := visit_secret c;
     regions := v; versions := versions c; slots := slots c; saves := saves c;
     mods := mods c; running := running c; launch_id := launch_id c; region := region c;
     server_address := server_address c; server_status := server_status c;
     logs_listeners := logs_listeners c; message_listeners := message_listeners c;
     mods_sync := mods_sync c; saves_sync := saves_sync c;
     last_handled_message_num := last_handled_message_num c |}.

Definition set_versions (v : pyval) (c : FZClient) : FZClient :=
  {| socket := socket c; user_token := user_token c; visit_secret := visit_secret c;
     regions := regions c; versions := v; slots := slots c; saves := saves c;
     mods := mods c; running := running c; launch_id := launch_id c; region := region c;
     server_address := server_address c; server_status := server_status c;
     logs_listeners := logs_listeners c; message_listeners := message_listeners c;
     mods_sync := mods_sync c; saves_sync := saves_sync c;
     last_handled_message_num := last_handled_message_num c |}.

Definition set_slots (v : gmap pykey pyval) (c : FZClient) : FZClient :=
  {| socket := socket c; user_token := user_token c; visit_secret := visit_secret c;
     regions := regions c; versions := versions c; slots := v; saves := saves c;
     mods := mods c; running := running c; launch_id := launch_id c; region := region c;
     server_address := server_address c; server_status := server_status c;
     logs_listeners := logs_listeners c; message_listeners := message_listeners c;
     mods_sync := mods_sync c; saves_sync := saves_sync c;
     last_handled_message_num := last_handled_message_num c |}.

Definition set_saves (v : pyval) (c : FZClient) : FZClient :=
  {| socket := socket c; user_token := user_token c; visit_secret := visit_secret c;
     regions := regions c; versions := versions c; slots := slots c; saves := v;
     mods := mods c; running := running c; launch_id := launch_id c; region := region c;
     server_address := server_address c; server_status := server_status c;
     logs_listeners := logs_listeners c; message_listeners := message_listeners c;
     mods_sync := mods_sync c; saves_sync := saves_sync c;
     last_handled_message_num := last_handled_message_num c |}.

Definition set_mods (v : pyval) (c : FZClient) : FZClient :=
  {| socket := socket c; user_token := user_token c; visit_secret := visit_secret c;
     regions := regions c; versions := versions c; slots := slots c; saves := saves c;
     mods := v; running := running c; launch_id := launch_id c; region := region c;
     server_address := server_address c; server_status := server_status c;
     logs_listeners := logs_listeners c; message_listeners := message_listeners c;
     mods_sync := mods_sync c; saves_sync := saves_sync c;
     last_handled_message_num := last_handled_message_num c |}.

Definition set_running (v : bool) (c : FZClient) : FZClient :=
  {| socket := socket c; user_token := user_token c; visit_secret := visit_secret c;
     regions := regions c; versions := versions c; slots := slots c; saves := saves c;
     mods := mods c; running := v; launch_id := launch_id c; region := region c;
     server_address := server_address c; server_status := server_status c;
     logs_listeners := logs_listeners c; message_listeners := message_listeners c;
     mods_sync := mods_sync c; saves_sync := saves_sync c;
     last_handled_message_num := last_handled_message_num c |}.

Definition set_launch_id (v : pyval) (c : FZClient) : FZClient :=
  {| socket := socket c; user_token := user_token c; visit_secret := visit_secret c;
     regions := regions c; versions := versions c; slots := slots c; saves := saves c;
     mods := mods c; running := running c; launch_id := v; region := region c;
     server_address := server_address c; server_status := server_status c;
     logs_listeners := logs_listeners c; message_listeners := message_listeners c;
     mods_sync := mods_sync c; saves_sync := saves_sync c;
     last_handled_message_num := last_handled_message_num c |}.

Definition set_server_address (v : pyval) (c : FZClient) : FZClient :=
  {| socket := socket c; user_token := user_token c; visit_secret := visit_secret c;
     regions := regions c; versions := versions c; slots := slots c; saves := saves c;
     mods := mods c; running := running c; launch_id := launch_id c; region := region c;
     server_address := v; server_status := server_status c;
     logs_listeners := logs_listeners c; message_listeners := message_listeners c;
     mods_sync := mods_sync c; saves_sync := saves_sync c;
     last_handled_message_num := last_handled_message_num c |}.

Definition set_server_status (v : ServerStatus) (c : FZClient) : FZClient :=
  {| socket := socket c; user_token := user_token c; visit_secret := visit_secret c;
     regions := regions c; versions := versions c; slots := slots c; saves := saves c;
     mods := mods c; running := running c; launch_id := launch_id c; region := region c;
     server_address := server_address c; server_status := v;
     logs_listeners := logs_listeners c; message_listeners := message_listeners c;
     mods_sync := mods_sync c; saves_sync := saves_sync c;
     last_handled_message_num := last_handled_message_num c |}.

Definition set_logs_listeners (v : list callable) (c : FZClient) : FZClient :=
  {| socket := socket c; user_token := user_token c; visit_secret := visit_secret c;
     regions := regions c; versions := versions c; slots := slots c; saves := saves c;
     mods := mods c; running := running c; launch_id := launch_id c; region := region c;
     server_address := server_address c; server_status := server_status c;
     logs_listeners := v; message_listeners := message_listeners c;
     mods_sync := mods_sync c; saves_sync := saves_sync c;
     last_handled_message_num := last_handled_message_num c |}.

Definition set_message_listeners (v : list callable) (c : FZClient) : FZClient :=
  {| socket := socket c; user_token := user_token c; visit_secret := visit_secret c;
     regions := regions c; versions := versions c; slots := slots c; saves := saves c;
     mods := mods c; running := running c; launch_id := launch_id c; region := region c;
     server_address := server_address c; server_status := server_status c;
     logs_listeners := logs_listeners c; message_listeners := v;
     mods_sync := mods_sync c; saves_sync := saves_sync c;
     last_handled_message_num := last_handled_message_num c |}.

Definition set_mods_sync (v : bool) (c : FZClient) : FZClient :=
  {| socket := socket c; user_token := user_token c; visit_secret := visit_secret c;
     regions := regions c; versions := versions c; slots := slots c; saves := saves c;
     mods := mods c; running := running c; launch_id := launch_id c; region := region c;
     server_address := server_address c; server_status := server_status c;
     logs_listeners := logs_listeners c; message_listeners := message_listeners c;
     mods_sync := v; saves_sync := saves_sync c;
     last_handled_message_num := last_handled_message_num c |}.

Definition set_saves_sync (v : bool) (c : FZClient) : FZClient :=
  {| socket := socket c; user_token := user_token c; visit_secret := visit_secret c;
     regions := regions c; versions := versions c; slots := slots c; saves := saves c;
     mods := mods c; running := running c; launch_id := launch_id c; region := region c;
     server_address := server_address c; server_status := server_status c;
     logs_listeners := logs_listeners c; message_listeners := message_listeners c;
     mods_sync := mods_sync c; saves_sync := v;
     last_handled_message_num := last_handled_message_num c |}.

Definition set_last_handled_message_num (v : Z) (c : FZClient) : FZClient :=
  {| socket := socket c; user_token := user_token c; visit_secret := visit_secret c;
     regions := regions c; versions := versions c; slots := slots c; saves := saves c;
     mods := mods c; running := running c; launch_id := launch_id c; region := region c;
     server_address := server_address c; server_status := server_status c;
     logs_listeners := logs_listeners c; message_listeners := message_listeners c;
     mods_sync := mods_sync c; saves_sync := saves_sync c;
     last_handled_message_num := v |}.

Module Mod.
Record t : Type := { name : string; filePath : string; size : Z }.
End Mod.

Module Save.
Record t : Type := { name : string; filePath : string; size : Z; slot : string }.
End Save.

(** ** Requests, responses, effects *)

Definition FACTORIO_ZONE_ENDPOINT : string := "factorio.zone".

Inductive part : Type :=
| Field (v : pyval)
| FileField (filename : string) (path : string) (content_type : string).

Inductive payload : Type :=
| Form (fields : list (string * pyval))
| Multipart (fields : list (string * part)) (monitor : option callable).

Record request : Type := { url : string; body : payload; stream : bool }.

(** What the iteration of a streamed body yields: a chunk, or the
    exception the transport raises when the stream breaks. *)
Inductive streamed : Type :=
| Chunk (data : string)
| Broken (e : exn).

(** What the code reads of a [requests.Response]: [json] is [None] when
    [resp.json()] would raise, [iter_content] what the iterator of a
    streamed body yields. *)
Record response : Type := {
  status_code : Z;
  text : string;
  json : option pyval;
  iter_content : list streamed
}.

(** [Response.ok]: [raise_for_status] raises for 400..599 only. *)
Definition ok (resp : response) : bool :=
  negb ((400 <=? status_code resp) && (status_code resp <? 600)).

(** The external effects, in the order the code performs them. A request
    is recorded with the client object as it is when the request leaves. *)
Inductive effect : Type :=
| EConnect (uri : string)
| ERecv (message : string)
| EPost (at_request : FZClient) (req : request)
| EOpen (path : string) (mode : string)
| EWrite (path : string) (chunk : string)
| ECall (f : callable) (arg : pyval).

Record Env : Type := {
  json_loads : string -> option pyval;
  re_findall : string -> string -> list string;
  ws_connect : list effect -> string -> option exn;
  requests_post : list effect -> request -> exn + response;
  multipart_encoder : list effect -> list (string * part) -> option exn;
  builtin_open : list effect -> string -> string -> option exn;
  builtin_write : list effect -> string -> string -> option exn;
  call : list effect -> callable -> pyval -> option exn
}.

Record World : Type := { self : FZClient; trace : list effect }.

Inductive result (A : Type) : Type :=
| Ok (a : A)
| Exc (e : exn).
Arguments Ok {A} a.
Arguments Exc {A} e.

Definition M (A : Type) : Type := World -> result A * World.

Definition ret {A} (a : A) : M A := fun w => (Ok a, w).

Definition raise {A} (e : exn) : M A := fun w => (Exc e, w).

Definition bind {A B} (c : M A) (k : A -> M B) : M B :=
  fun w => match c w with
           | (Ok a, w') => k a w'
           | (Exc e, w') => (Exc e, w')
           end.

Declare Scope py_scope.
Delimit Scope py_scope with py.
Notation "'let!' x ':=' c 'in' k" := (bind c (fun x => k))
  (at level 10, x name, c at level 100, k at level 200) : py_scope.
Notation "c1 '>>' c2" := (bind c1 (fun _ => c2))
  (at level 90, right associativity) : py_scope.
Local Open Scope py_scope.

Definition get_self : M FZClient := fun w => (Ok (self w), w).

Definition modify (f : FZClient -> FZClient) : M unit :=
  fun w => (Ok tt, {| self := f (self w); trace := trace w |}).

Definition emit (e : effect) (w : World) : World :=
  {| self := self w; trace := trace w ++ [e] |}.

Definition of_option {A} (e : exn) (o : option A) : M A :=
  match o with
  | Some a => ret a
  | None => raise e
  end.

(** [v[k]] for a string key. *)
Definition subscript (v : pyval) (k : string) : M pyval :=
  match v with
  | PDict d => of_option (KeyError k) (d !! k)
  | _ => raise TypeError
  end.

(** [v.get(k)]: only a dict has the method. *)
Definition py_get (v : pyval) (k : string) : M pyval :=
  match v with
  | PDict d => ret (dict_get d k)
  | _ => raise AttributeError
  end.

(** [v <= n] against an integer. *)
Definition py_le (v : pyval) (n : Z) : M bool :=
  match int_value v with
  | Some z => ret (z <=? n)
  | None => raise TypeError
  end.


Fixpoint for_each {A} (l : list A) (f : A -> M unit) : M unit :=
  match l with
  | [] => ret tt
  | x :: l' => f x >> for_each l' f
  end.

(** ** The methods of [FZClient] *)

Inductive verdict : Type :=
| Dropped (data : pyval)
| Handled (data : pyval).

Inductive stop : Type :=
| SocketClosed
| Raised (e : exn).

(** Lines 59-63 of [connect]: the check on [num]. [false] is the
    [continue] of line 62. It uses no oracle. *)
Definition sequencer (data : pyval) : M bool :=
  let! current_num := py_get data "num" in
  if truthy current_num then
    let! c := get_self in
    let! stale := py_le current_num (last_handled_message_num c) in
    if stale then ret false
    else modify (set_last_handled_message_num (as_int current_num)) >> ret true
  else ret true.

Section Client.

Context (env : Env).

Definition api (route : string) : string :=
  ("https://" ++ FACTORIO_ZONE_ENDPOINT ++ route)%string.

Definition post (req : request) : M response :=
  fun w =>
    let w' := emit (EPost (self w) req) w in
    match requests_post env (trace w) req with
    | inl e => (Exc e, w')
    | inr resp => (Ok resp, w')
    end.

Definition open_ (path mode : string) : M unit :=
  fun w =>
    let w' := emit (EOpen path mode) w in
    match builtin_open env (trace w) path mode with
    | Some e => (Exc e, w')
    | None => (Ok tt, w')
    end.

(** [MultipartEncoder(fields)]: the library prepares every part when the
    encoder is made, and raises if it cannot. *)
Definition build_encoder (fields : list (string * part)) : M unit :=
  fun w =>
    match multipart_encoder env (trace w) fields with
    | Some e => (Exc e, w)
    | None => (Ok tt, w)
    end.

Definition invoke (f : callable) (arg : pyval) : M unit :=
  fun w =>
    let w' := emit (ECall f arg) w in
    match call env (trace w) f arg with
    | Some e => (Exc e, w')
    | None => (Ok tt, w')
    end.

Definition on_new_log (log : pyval) : M unit :=
  let! c := get_self in
  for_each (logs_listeners c) (fun listener => invoke listener log).

Definition on_new_message (message_data : pyval) : M unit :=
  let! c := get_self in
  for_each (message_listeners c) (fun listener => invoke listener message_data).

Definition login : M unit :=
  let! c := get_self in
  let! resp := post {| url := api "/api/user/login";
                       body := Form [("userToken", user_token c);
                                     ("visitSecret", visit_secret c);
                                     ("reconnected", PBool false)];
                       stream := false |} in
  if ok resp then
    let! body := of_option (JSONDecodeError (text resp)) (json resp) in
    let! token := subscript body "userToken" in
    modify (set_user_token token)
  else raise (Exception ("Error logging in: " ++ text resp)).

(** Lines 65-111 of [connect]: the chain over [data['type']]. *)
Definition dispatch (data : pyval) : M unit :=
  let! type := subscript data "type" in
  if py_eq_str type "visit" then
    let! secret := subscript data "secret" in
    modify (set_visit_secret secret) >>
    login
  else if py_eq_str type "options" then
    let! name := subscript data "name" in
    if py_eq_str name "regions" then
      let! options := subscript data "options" in
      modify (set_regions options)
    else if py_eq_str name "versions" then
      let! options := subscript data "options" in
      modify (set_versions options)
    else if py_eq_str name "saves" then
      let! options := subscript data "options" in
      modify (set_saves options) >>
      modify (set_saves_sync true)
    else ret tt
  else if py_eq_str type "mods" then
    let! mods := subscript data "mods" in
    modify (set_mods mods) >>
    modify (set_mods_sync true)
  else if py_eq_str type "idle" then
    modify (set_running false) >>
    modify (set_launch_id PNone) >>
    modify (set_server_status OFFLINE) >>
    modify (set_last_handled_message_num (-1)) >>
    modify (set_server_address PNone)
  else if py_eq_str type "starting" then
    modify (set_running true) >>
    let! launch := py_get data "launchId" in
    modify (set_launch_id launch) >>
    modify (set_server_status STARTING)
  else if py_eq_str type "stopping" then
    modify (set_running true) >>
    let! launch := py_get data "launchId" in
    modify (set_launch_id launch) >>
    modify (set_server_status STOPPING)
  else if py_eq_str type "running" then
    modify (set_running true) >>
    let! launch := py_get data "launchId" in
    modify (set_launch_id launch) >>
    let! address := py_get data "socket" in
    modify (set_server_address address) >>
    modify (set_server_status RUNNING)
  else if py_eq_str type "slot" then
    let! slot := subscript data "slot" in
    let! key := of_option TypeError (hash_key slot) in
    modify (fun c => set_slots (<[key := data]> (slots c)) c)
  else if py_eq_str type "log" then
    let! log := py_get data "line" in
    on_new_log log
  else if py_eq_str type "info" then
    let! line := py_get data "line" in
    match line with
    | PStr l =>
        match re_findall env "selecting connection (\d+\.\d+\.\d+\.\d+:\d+)" l with
        | [] => ret tt
        | address :: _ =>
            modify (set_server_address (PStr address)) >>
            modify (set_server_status STARTING)
        end
    | _ => raise TypeError
    end
  else if py_eq_str type "warn" then ret tt
  else if py_eq_str type "error" then ret tt
  else ret tt.

(** One turn of the [while True] of [connect], after [recv]. *)
Definition connect_body (message : string) : M verdict :=
  let! data := of_option (JSONDecodeError message) (json_loads env message) in
  let! fresh := sequencer data in
  if fresh then
    dispatch data >>
    on_new_message data >>
    ret (Handled data)
  else ret (Dropped data).

(** The receive loop over the frames the socket delivers before it
    closes. The loop has no exit but an exception: [recv] on the closed
    socket raises ([SocketClosed]), or a turn does ([Raised]). It yields
    the verdicts of the completed turns, why it stopped, and the world it
    leaves. *)
Fixpoint connect_loop (frames : list string) (w : World)
  : list verdict * stop * World :=
  match frames with
  | [] => ([], SocketClosed, w)
  | message :: rest =>
      match connect_body message (emit (ERecv message) w) with
      | (Ok v, w') =>
          let '(vs, s, w'') := connect_loop rest w' in (v :: vs, s, w'')
      | (Exc e, w') => ([], Raised e, w')
      end
  end.

Definition connect (frames : list string) (w : World)
  : list verdict * stop * World :=
  let uri := ("wss://" ++ FACTORIO_ZONE_ENDPOINT ++ "/ws")%string in
  let w' := emit (EConnect uri) w in
  match ws_connect env (trace w) uri with
  | Some e => ([], Raised e, w')
  | None =>
      connect_loop frames
        {| self := set_socket (Some uri) (self w'); trace := trace w' |}
  end.

Definition toggle_mod (mod_id : Z) (enabled : bool) : M unit :=
  modify (set_mods_sync false) >>
  let! c := get_self in
  let! resp := post {| url := api "/api/mod/toggle";
                       body := Form [("visitSecret", visit_secret c);
                                     ("modId", PInt mod_id);
                                     ("enabled", PBool enabled)];
                       stream := false |} in
  if negb (ok resp) then
    modify (set_mods_sync true) >>
    raise (Exception ("Error in toggling mod: " ++ text resp))
  else ret tt.

Definition delete_mod (mod_id : Z) : M unit :=
  modify (set_mods_sync false) >>
  let! c := get_self in
  let! resp := post {| url := api "/api/mod/delete";
                       body := Form [("visitSecret", visit_secret c);
                                     ("modId", PInt mod_id)];
                       stream := false |} in
  if negb (ok resp) then
    modify (set_mods_sync true) >>
    raise (Exception ("Error in deleting mod: " ++ text resp))
  else ret tt.

Definition upload_mod (m : Mod.t) (cb : option callable) : M unit :=
  open_ (Mod.filePath m) "rb" >>
  if 268435456 <? Mod.size m then
    raise (Exception "Mod file must be under 256MB")
  else
    let! c := get_self in
    let encoder :=
      [("visitSecret", Field (visit_secret c));
       ("file", FileField (Mod.name m) (Mod.filePath m) "application/x-zip-compressed");
       ("size", Field (PStr (py_str (Mod.size m))))] in
    build_encoder encoder >>
    modify (set_mods_sync false) >>
    let! resp := post {| url := api "/api/mod/upload";
                         body := Multipart encoder cb;
                         stream := false |} in
    if negb (ok resp) then
      modify (set_mods_sync true) >>
      raise (Exception ("Error uploading mod: " ++ text resp))
    else ret tt.

Definition delete_save_slot (slot : string) : M unit :=
  modify (set_saves_sync false) >>
  let! c := get_self in
  let! resp := post {| url := api "/api/save/delete";
                       body := Form [("visitSecret", visit_secret c);
                                     ("save", PStr slot)];
                       stream := false |} in
  if negb (status_code resp =? 200) then
    modify (set_saves_sync true) >>
    raise (Exception ("Error deleting save: " ++ text resp))
  else ret tt.



Definition upload_save (save : Save.t) (cb : option callable) : M unit :=
  open_ (Save.filePath save) "rb" >>
  if 100663296 <? Save.size save then
    raise (Exception "Save file must be under 96MB")
  else
    let! c := get_self in
    let encoder :=
      [("visitSecret", Field (visit_secret c));
       ("file", FileField (Save.name save) (Save.filePath save)
                  "application/x-zip-compressed");
       ("size", Field (PStr (py_str (Save.size save))));
       ("save", Field (PStr (Save.slot save)))] in
    build_encoder encoder >>
    modify (set_saves_sync false) >>
    let! resp := post {| url := api "/api/save/upload";
                         body := Multipart encoder cb;
                         stream := false |} in
    if negb (ok resp) then
      modify (set_saves_sync true) >>
      raise (Exception ("Error uploading save: " ++ text resp))
    else ret tt.

End Client.

(** ** Listeners, instance operations, [wait_sync] *)

Definition add_logs_listener (listener : callable) (c : FZClient) : FZClient :=
  set_logs_listeners (logs_listeners c ++ [listener]) c.

Definition add_message_listener (listener : callable) (c : FZClient) : FZClient :=
  set_message_listeners (message_listeners c ++ [listener]) c.

(** [l.remove(x)]: the first occurrence goes; [None] is the [ValueError]
    of a list that does not hold [x], which leaves the list as it is. *)
Fixpoint list_remove (x : callable) (l : list callable) : option (list callable) :=
  match l with
  | [] => None
  | y :: l' =>
      if Nat.eqb y x then Some l'
      else match list_remove x l' with
           | Some r => Some (y :: r)
           | None => None
           end
  end.

Definition remove_logs_listener (listener : callable) (c : FZClient)
  : option FZClient :=
  match list_remove listener (logs_listeners c) with
  | Some l => Some (set_logs_listeners l c)
  | None => None
  end.

Definition remove_message_listener (listener : callable) (c : FZClient)
  : option FZClient :=
  match list_remove listener (message_listeners c) with
  | Some l => Some (set_message_listeners l c)
  | None => None
  end.

(** [wait_sync], over the object as each test of the loop condition finds
    it (the other tasks run during the sleep between two tests): the number
    of sleeps before it returns, [None] when it is still waiting after the
    last of [polls]. *)
Fixpoint wait_sync (polls : list FZClient) : option nat :=
  match polls with
  | [] => None
  | c :: rest =>
      if negb (mods_sync c) || negb (saves_sync c)
      then match wait_sync rest with
           | Some k => Some (S k)
           | None => None
           end
      else Some 0%nat
  end.

Section Instance.

Context (env : Env).

Definition send_command (command : pyval) : M unit :=
  let! c := get_self in
  let! resp := post env {| url := api "/api/instance/console";
                           body := Form [("visitSecret", visit_secret c);
                                         ("launchId", launch_id c);
                                         ("input", command)];
                           stream := false |} in
  if negb (status_code resp =? 200) then
    raise (Exception ("Error sending console command: " ++ text resp))
  else ret tt.

Definition start_instance (region version save : pyval) (ipv6 : bool) : M unit :=
  let! c := get_self in
  let! resp := post env {| url := api "/api/instance/start";
                           body := Form [("visitSecret", visit_secret c);
                                         ("region", region);
                                         ("version", version);
                                         ("save", save);
                                         ("ipv6", PBool ipv6)];
                           stream := false |} in
  if negb (status_code resp =? 200) then
    raise (Exception ("Error starting instance: " ++ text resp))
  else
    let! body := of_option (JSONDecodeError (text resp)) (json resp) in
    let! launch := subscript body "launchId" in
    modify (set_launch_id launch).

(** The [timeout=3600] of the request bounds how long the library waits;
    the oracle answers or raises, whichever the wait ends in. *)
Definition stop_instance : M unit :=
  let! c := get_self in
  let! resp := post env {| url := api "/api/instance/stop";
                           body := Form [("visitSecret", visit_secret c);
                                         ("launchId", launch_id c)];
                           stream := false |} in
  if negb (status_code resp =? 200) then
    raise (Exception ("Error stopping instance: " ++ text resp))
  else ret tt.

End Instance.

(** ** A scripted environment, to run the model on concrete inputs

    [table] lists the frames that decode and what they decode to, every
    request is answered by [resp], the paths of [missing] cannot be
    opened, and no callback raises. *)

Fixpoint lookup_frame (table : list (string * pyval)) (message : string)
  : option pyval :=
  match table with
  | [] => None
  | (m, v) :: rest => if String.eqb m message then Some v else lookup_frame rest message
  end.

(** The parts the multipart encoder of the scripted environment accepts:
    it encodes a plain field with [str.encode], which a value that is
    neither [None] nor a string does not have. *)
Definition encodable (fields : list (string * part)) : bool :=
  forallb (fun field => match snd field with
                        | Field PNone | Field (PStr _) => true
                        | Field _ => false
                        | FileField _ _ _ => true
                        end) fields.

Definition scripted (table : list (string * pyval)) (resp : response)
           (missing : list string) : Env :=
  {| json_loads := lookup_frame table;
     re_findall := fun _ _ => [];
     ws_connect := fun _ _ => None;
     requests_post := fun _ _ => inr resp;
     multipart_encoder := fun _ fields =>
       if encodable fields then None else Some AttributeError;
     builtin_open := fun _ path _ =>
       if existsb (String.eqb path) missing then Some (OSError path) else None;
     builtin_write := fun _ _ _ => None;
     call := fun _ _ _ => None |}.

Definition reply (status : Z) (body : string) : response :=
  {| status_code := status; text := body; json := None; iter_content := [] |}.

Definition fresh_world (c : FZClient) : World := {| self := c; trace := [] |}.

(** The events of the example of the specification. *)
Definition starting_event : pyval :=
  PDict {[ "type" := PStr "starting"; "launchId" := PStr "abc"; "num" := PInt 4 ]}.

Definition running_event : pyval :=
  PDict {[ "type" := PStr "running"; "launchId" := PStr "abc";
           "socket" := PStr "1.2.3.4:1234"; "num" := PInt 5 ]}.

(** An event of type [type] that carries the sequence number [n] and
    nothing else. *)
Definition numbered (type : string) (n : Z) : pyval :=
  PDict {[ "type" := PStr type; "num" := PInt n ]}.

(** The object after a turn that handled an event numbered 5. *)
Definition after_five : FZClient :=
  set_last_handled_message_num 5 (init PNone).

(** The frames used to run the model, named after what they decode to;
    "{" stands for a frame that is not JSON. Every request is answered
    200 and every file opens. *)
Definition demo_frames : list (string * pyval) :=
  [("starting#4", starting_event); ("running#5", running_event);
   ("stopping#0", numbered "stopping" 0); ("warn#3", numbered "warn" 3);
   ("warn#5", numbered "warn" 5); ("error#5", numbered "error" 5);
   ("idle#7", numbered "idle" 7)].

Definition demo_env : Env := scripted demo_frames (reply 200 "") [].

(** A client whose mods and saves have both been received. *)
Definition synced : FZClient :=
  set_saves_sync true (set_mods_sync true (init PNone)).

(** A mod of 300 MiB and a save of 100 MiB, both over their limits. *)
Definition big_mod : Mod.t :=
  {| Mod.name := "big.zip"; Mod.filePath := "/mods/big.zip";
     Mod.size := 300 * 1048576 |}.

Definition big_save : Save.t :=
  {| Save.name := "big.zip"; Save.filePath := "/saves/big.zip";
     Save.size := 100 * 1048576; Save.slot := "slot1" |}.

(** An environment in which the files of [big_mod] and [big_save] are
    gone, and one whose server refuses every request. *)
Definition bare_env : Env :=
  scripted [] (reply 200 "") ["/mods/big.zip"; "/saves/big.zip"].

Definition refusing_env : Env := scripted [] (reply 500 "no") [].

(** ** Predicates of the statements

    [preserves R c]: whatever [c] returns or raises, the object it leaves
    is related by [R] to the one it found. *)

Definition preserves {A} (R : FZClient -> FZClient -> Prop) (c : M A) : Prop :=
  forall w, R (self w) (self (snd (c w))).

(** The relation the dispatcher keeps on the sequence number: unchanged,
    or reset. *)
Definition kept_or_reset (c c' : FZClient) : Prop :=
  last_handled_message_num c' = last_handled_message_num c \/
  last_handled_message_num c' = -1.

(** The frames decode to the events [ds], each of which carries an integer
    [num]; the numbers increase strictly and all exceed [lo]. *)
Fixpoint ascending (env : Env) (lo : Z) (frames : list string)
         (ds : list (gmap string pyval)) : Prop :=
  match frames, ds with
  | [], [] => True
  | message :: frames', d :: ds' =>
      json_loads env message = Some (PDict d) /\
      exists n, d !! "num" = Some (PInt n) /\ lo < n /\ ascending env n frames' ds'
  | _, _ => False
  end.

(** A sync flag that was set is still set. *)
Definition flags_kept (c c' : FZClient) : Prop :=
  (mods_sync c = true -> mods_sync c' = true) /\
  (saves_sync c = true -> saves_sync c' = true).

(** The last handled number has not gone down. *)
Definition not_lowered (c c' : FZClient) : Prop :=
  last_handled_message_num c <= last_handled_message_num c'.

(** The last handled number is -1 or more, if it was. *)
Definition floor_kept (c c' : FZClient) : Prop :=
  -1 <= last_handled_message_num c -> -1 <= last_handled_message_num c'.

(** The values of [data['type']] that have a branch which does something
    in the dispatcher. *)
Definition handled_types : list string :=
  ["visit"; "options"; "mods"; "idle"; "starting"; "stopping"; "running";
   "slot"; "log"; "info"].

(** The last handled number is what it was. *)
Definition same_number (c c' : FZClient) : Prop :=
  last_handled_message_num c' = last_handled_message_num c.

(** The events that end the first synchronisation, and an environment
    that decodes them; "[1]" is a frame that is JSON but no object,
    "untyped#2" an object without [type]. *)
Definition mods_event : pyval :=
  PDict {[ "type" := PStr "mods"; "num" := PInt 2;
           "mods" := PList [PDict {[ "id" := PInt 1; "text" := PStr "base";
                                     "enabled" := PBool true ]}] ]}.

Definition saves_event : pyval :=
  PDict {[ "type" := PStr "options"; "name" := PStr "saves"; "num" := PInt 1;
           "options" := PDict {[ "slot1" := PStr "slot 1 (empty)" ]} ]}.

Definition sync_frames : list (string * pyval) :=
  [("saves#1", saves_event); ("mods#2", mods_event);
   ("[1]", PList [PInt 1]); ("untyped#2", PDict {[ "num" := PInt 2 ]});
   ("warn#5", numbered "warn" 5)].

Definition sync_env : Env := scripted sync_frames (reply 200 "") [].

(** Nothing but the user token differs. *)
Definition token_only (c c' : FZClient) : Prop :=
  c' = set_user_token (user_token c') c.

(** The login request of a client whose token is [token], for the visit
    secret [secret]. *)
Definition login_request (token secret : pyval) : request :=
  {| url := api "/api/user/login";
     body := Form [("userToken", token); ("visitSecret", secret);
                   ("reconnected", PBool false)];
     stream := false |}.

(** A server that accepts the login and confirms the token "tok", with
    the [visit] and [slot] events of a session. *)
Definition token_reply : response :=
  {| status_code := 200; text := "ok";
     json := Some (PDict {[ "userToken" := PStr "tok" ]});
     iter_content := [] |}.

Definition visit_event : pyval :=
  PDict {[ "type" := PStr "visit"; "secret" := PStr "s3cr3t" ]}.

Definition slot_event : pyval :=
  PDict {[ "type" := PStr "slot"; "slot" := PStr "slot1"; "num" := PInt 9 ]}.

Definition session_env : Env :=
  scripted [("visit", visit_event); ("slot#9", slot_event)] token_reply [].

(** The calls that notify the listeners [l] of [arg], in order. *)
Definition calls (arg : pyval) (l : list callable) : list effect :=
  map (fun f => ECall f arg) l.

(** A [log] event, a client with two log listeners and one message
    listener, and an environment in which listener 2 raises. *)
Definition log_event : pyval :=
  PDict {[ "type" := PStr "log"; "line" := PStr "hello"; "num" := PInt 3 ]}.

Definition listening : FZClient :=
  add_message_listener 3%nat
    (add_logs_listener 2%nat (add_logs_listener 1%nat (init PNone))).

Definition faulty_env : Env :=
  {| json_loads := lookup_frame [("log#3", log_event)];
     re_findall := fun _ _ => [];
     ws_connect := fun _ _ => None;
     requests_post := fun _ _ => inl ConnectionError;
     multipart_encoder := fun _ _ => None;
     builtin_open := fun _ _ _ => None;
     builtin_write := fun _ _ _ => None;
     call := fun _ f _ =>
       if Nat.eqb f 2%nat then Some (Exception "listener") else None |}.

(** The requests of the operations on mods and saves, for the visit
    secret [secret]. *)
Definition delete_mod_request (secret : pyval) (mod_id : Z) : request :=
  {| url := api "/api/mod/delete";
     body := Form [("visitSecret", secret); ("modId", PInt mod_id)];
     stream := false |}.

Definition upload_mod_fields (secret : pyval) (m : Mod.t)
  : list (string * part) :=
  [("visitSecret", Field secret);
   ("file", FileField (Mod.name m) (Mod.filePath m) "application/x-zip-compressed");
   ("size", Field (PStr (py_str (Mod.size m))))].

Definition upload_mod_request (secret : pyval) (m : Mod.t) (cb : option callable)
  : request :=
  {| url := api "/api/mod/upload";
     body := Multipart (upload_mod_fields secret m) cb;
     stream := false |}.

Definition delete_save_request (secret : pyval) (slot : string) : request :=
  {| url := api "/api/save/delete";
     body := Form [("visitSecret", secret); ("save", PStr slot)];
     stream := false |}.

Definition upload_save_fields (secret : pyval) (save : Save.t)
  : list (string * part) :=
  [("visitSecret", Field secret);
   ("file", FileField (Save.name save) (Save.filePath save)
              "application/x-zip-compressed");
   ("size", Field (PStr (py_str (Save.size save))));
   ("save", Field (PStr (Save.slot save)))].

Definition upload_save_request (secret : pyval) (save : Save.t)
           (cb : option callable) : request :=
  {| url := api "/api/save/upload";
     body := Multipart (upload_save_fields secret save) cb;
     stream := false |}.

Definition toggle_mod_request (secret : pyval) (mod_id : Z) (enabled : bool)
  : request :=
  {| url := api "/api/mod/toggle";
     body := Form [("visitSecret", secret); ("modId", PInt mod_id);
                   ("enabled", PBool enabled)];
     stream := false |}.

(** What an operation that has cleared a flag does with the answer to its
    request [req], sent from the world [w0]: [failed] is its test of the
    response, [restore] sets the flag again, [what] starts its message. *)
Definition settle (answer : exn + response) (failed : response -> bool)
           (restore : FZClient -> FZClient) (what : string) (req : request)
           (w0 : World) : result unit * World :=
  let sent := {| self := self w0; trace := trace w0 ++ [EPost (self w0) req] |} in
  match answer with
  | inl e => (Exc e, sent)
  | inr resp =>
      if failed resp
      then (Exc (Exception (what ++ text resp)),
            {| self := restore (self w0); trace := trace sent |})
      else (Ok tt, sent)
  end.

(** A mod and a save of exactly the largest size the guards let through. *)
Definition full_mod : Mod.t :=
  {| Mod.name := "full.zip"; Mod.filePath := "/mods/full.zip";
     Mod.size := 268435456 |}.

Definition full_save : Save.t :=
  {| Save.name := "full.zip"; Save.filePath := "/saves/full.zip";
     Save.size := 100663296; Save.slot := "slot2" |}.

(** A client whose visit secret is the number 5, as a [visit] event with
    such a secret leaves it. *)
Definition numeric_secret : FZClient := set_visit_secret (PInt 5) synced.

(** A server that answers 204 to everything. *)
Definition no_content_env : Env := scripted [] (reply 204 "") [].






(** The requests of the instance operations. *)
Definition start_request (secret region version save : pyval) (ipv6 : bool)
  : request :=
  {| url := api "/api/instance/start";
     body := Form [("visitSecret", secret); ("region", region);
                   ("version", version); ("save", save); ("ipv6", PBool ipv6)];
     stream := false |}.

Definition console_request (secret launch command : pyval) : request :=
  {| url := api "/api/instance/console";
     body := Form [("visitSecret", secret); ("launchId", launch);
                   ("input", command)];
     stream := false |}.

Definition stop_request (secret launch : pyval) : request :=
  {| url := api "/api/instance/stop";
     body := Form [("visitSecret", secret); ("launchId", launch)];
     stream := false |}.

(** A server that starts an instance with launch id "L1". *)
Definition launch_reply : response :=
  {| status_code := 200; text := "ok";
     json := Some (PDict {[ "launchId" := PStr "L1" ]});
     iter_content := [] |}.

Definition launch_env : Env := scripted [] launch_reply [].

(** The socket is the one that was opened. *)
Definition same_socket (c c' : FZClient) : Prop := socket c' = socket c.

(** An [info] event whose line names the connection, one without a line,
    and an environment whose regular expression engine finds the address
    in the former. *)
Definition info_event : pyval :=
  PDict {[ "type" := PStr "info";
           "line" := PStr "selecting connection 10.0.0.5:9000 for instance" ]}.

Definition info_env : Env :=
  {| json_loads := lookup_frame [("info", info_event);
                                 ("info?", PDict {[ "type" := PStr "info" ]})];
     re_findall := fun _ line =>
       if String.eqb line "selecting connection 10.0.0.5:9000 for instance"
       then ["10.0.0.5:9000"] else [];
     ws_connect := fun _ _ => Some ConnectionError;
     requests_post := fun _ _ => inl ConnectionError;
     multipart_encoder := fun _ _ => None;
     builtin_open := fun _ _ _ => None;
     builtin_write := fun _ _ _ => None;
     call := fun _ _ _ => None |}.

(** A client that shows the server OFFLINE holds nothing of a running
    instance: it is not [running], has no launch id and no server address. *)
Definition offline_ok (c : FZClient) : Prop :=
  server_status c = OFFLINE ->
  running c = false /\ launch_id c = PNone /\ server_address c = PNone.

Definition offline_kept (c c' : FZClient) : Prop := offline_ok c -> offline_ok c'.

(** A server that answers 304 to everything. *)
Definition not_modified_env : Env := scripted [] (reply 304 "") [].

(** The event of the frame [message], if it is an object with [num],
    carries an integer there. *)
Definition integer_num (env : Env) (message : string) : Prop :=
  forall d v, json_loads env message = Some (PDict d) ->
              d !! "num" = Some v -> exists n, v = PInt n.

(** ** The sequence-number check *)

Lemma sequencer_absent (d : gmap string pyval) (w : World) :
  d !! "num" = None -> sequencer (PDict d) w = (Ok true, w).
Proof.
  intros H. unfold sequencer, bind, py_get, ret, dict_get. rewrite H. reflexivity.
Qed.

Lemma sequencer_zero (d : gmap string pyval) (w : World) :
  d !! "num" = Some (PInt 0) -> sequencer (PDict d) w = (Ok true, w).
Proof.
  intros H. unfold sequencer, bind, py_get, ret, dict_get. rewrite H. reflexivity.
Qed.

Lemma sequencer_int (d : gmap string pyval) (n : Z) (w : World) :
  d !! "num" = Some (PInt n) -> n <> 0 ->
  sequencer (PDict d) w =
    if n <=? last_handled_message_num (self w) then (Ok false, w)
    else (Ok true, {| self := set_last_handled_message_num n (self w);
                      trace := trace w |}).
Proof.
  intros H Hn. unfold sequencer, bind, py_get, ret, dict_get. rewrite H.
  cbn [truthy]. destruct (Z.eqb_spec n 0) as [->|_]; [congruence|].
  cbn. destruct (n <=? last_handled_message_num (self w)); reflexivity.
Qed.

(** ** What a method leaves of the client object *)

Section Preserves.

Context (R : FZClient -> FZClient -> Prop).
Hypothesis R_refl : forall c, R c c.
Hypothesis R_trans : forall a b c, R a b -> R b c -> R a c.

Lemma preserves_ret {A} (a : A) : preserves R (ret a).
Proof. intros w. apply R_refl. Qed.

Lemma preserves_raise {A} (e : exn) : preserves R (@raise A e).
Proof. intros w. apply R_refl. Qed.

Lemma preserves_get_self : preserves R get_self.
Proof. intros w. apply R_refl. Qed.

Lemma preserves_bind {A B} (c : M A) (k : A -> M B) :
  preserves R c -> (forall a, preserves R (k a)) -> preserves R (bind c k).
Proof.
  intros Hc Hk w. unfold bind. specialize (Hc w).
  destruct (c w) as [[a|e] w1]; cbn in *; [|exact Hc].
  eapply R_trans; [exact Hc|apply Hk].
Qed.

Lemma preserves_modify (f : FZClient -> FZClient) :
  (forall c, R c (f c)) -> preserves R (modify f).
Proof. intros Hf w. apply Hf. Qed.

Lemma preserves_of_option {A} (e : exn) (o : option A) :
  preserves R (of_option e o).
Proof. destruct o; [apply preserves_ret|apply preserves_raise]. Qed.

Lemma preserves_subscript (v : pyval) (k : string) : preserves R (subscript v k).
Proof.
  destruct v; try apply preserves_raise. apply preserves_of_option.
Qed.

Lemma preserves_py_get (v : pyval) (k : string) : preserves R (py_get v k).
Proof. destruct v; try apply preserves_raise. apply preserves_ret. Qed.

Lemma preserves_py_le (v : pyval) (n : Z) : preserves R (py_le v n).
Proof.
  unfold py_le. destruct (int_value v); [apply preserves_ret|apply preserves_raise].
Qed.

Lemma preserves_for_each {A} (l : list A) (f : A -> M unit) :
  (forall x, preserves R (f x)) -> preserves R (for_each l f).
Proof.
  intros Hf. induction l as [|x l IH]; cbn [for_each].
  - apply preserves_ret.
  - apply preserves_bind; [apply Hf|intros _; exact IH].
Qed.

Context (env : Env).

Lemma preserves_post (req : request) : preserves R (post env req).
Proof.
  intros w. unfold post. destruct (requests_post env (trace w) req); apply R_refl.
Qed.

Lemma preserves_open (path mode : string) : preserves R (open_ env path mode).
Proof.
  intros w. unfold open_.
  destruct (builtin_open env (trace w) path mode); apply R_refl.
Qed.


Lemma preserves_invoke (f : callable) (arg : pyval) : preserves R (invoke env f arg).
Proof.
  intros w. unfold invoke. destruct (call env (trace w) f arg); apply R_refl.
Qed.


Lemma preserves_on_new_log (log : pyval) : preserves R (on_new_log env log).
Proof.
  apply preserves_bind; [apply preserves_get_self|intros c].
  apply preserves_for_each. intros f. apply preserves_invoke.
Qed.

Lemma preserves_on_new_message (data : pyval) :
  preserves R (on_new_message env data).
Proof.
  apply preserves_bind; [apply preserves_get_self|intros c].
  apply preserves_for_each. intros f. apply preserves_invoke.
Qed.

End Preserves.

(** Repeated use of the lemmas above along the shape of a method, for a
    relation with proofs [refl] and [trans]; what remains are the attribute
    assignments. *)
Ltac frame refl trans :=
  repeat first
    [ apply (preserves_on_new_log _ refl trans)
    | apply (preserves_on_new_message _ refl trans)
    | apply (preserves_bind _ trans); [|intros ?]
    | apply (preserves_ret _ refl)
    | apply (preserves_raise _ refl)
    | apply (preserves_get_self _ refl)
    | apply (preserves_of_option _ refl)
    | apply (preserves_subscript _ refl)
    | apply (preserves_py_get _ refl)
    | apply (preserves_py_le _ refl)
    | apply (preserves_post _ refl)
    | apply (preserves_open _ refl)
    | apply (preserves_invoke _ refl)
    | apply preserves_modify; intros ?
    | match goal with
      | |- preserves _ (if ?b then _ else _) => destruct b
      | |- preserves _ (match ?x with _ => _ end) => destruct x
      end ].

Lemma kept_or_reset_refl (c : FZClient) : kept_or_reset c c.
Proof. left. reflexivity. Qed.

Lemma kept_or_reset_trans (a b c : FZClient) :
  kept_or_reset a b -> kept_or_reset b c -> kept_or_reset a c.
Proof. unfold kept_or_reset. intros [Hab|Hab] [Hbc|Hbc]; rewrite ?Hbc, ?Hab; auto. Qed.

Lemma login_kept (env : Env) : preserves kept_or_reset (login env).
Proof.
  unfold login.
  frame kept_or_reset_refl kept_or_reset_trans; try (left; reflexivity).
Qed.

Lemma dispatch_kept (env : Env) (data : pyval) :
  preserves kept_or_reset (dispatch env data).
Proof.
  unfold dispatch.
  frame kept_or_reset_refl kept_or_reset_trans;
    try apply login_kept; try (left; reflexivity); try (right; reflexivity).
Qed.

(** ** One turn of the receive loop *)

Lemma connect_body_accepted (env : Env) (message : string) (data : pyval)
      (w w1 : World) :
  json_loads env message = Some data ->
  sequencer data w = (Ok true, w1) ->
  connect_body env message w =
    (dispatch env data >> on_new_message env data >> ret (Handled data)) w1.
Proof.
  intros Hd Hs. unfold connect_body, bind at 1, of_option. rewrite Hd.
  cbn [ret]. unfold bind at 1. rewrite Hs. reflexivity.
Qed.

Lemma connect_body_dropped (env : Env) (message : string) (data : pyval)
      (w w1 : World) :
  json_loads env message = Some data ->
  sequencer data w = (Ok false, w1) ->
  connect_body env message w = (Ok (Dropped data), w1).
Proof.
  intros Hd Hs. unfold connect_body, bind at 1, of_option. rewrite Hd.
  cbn [ret]. unfold bind at 1. rewrite Hs. reflexivity.
Qed.

Lemma connect_body_undecodable (env : Env) (message : string) (w : World) :
  json_loads env message = None ->
  connect_body env message w = (Exc (JSONDecodeError message), w).
Proof.
  intros Hd. unfold connect_body, bind, of_option. rewrite Hd. reflexivity.
Qed.

(** Away from 0 the check does what the sequencer is specified to do: a
    number not above the last handled one drops the event and leaves the
    world as it is, a number above it is recorded and the event goes on to
    the dispatcher. *)
Lemma connect_body_nonzero (env : Env) (message : string)
      (d : gmap string pyval) (n : Z) (w : World) :
  json_loads env message = Some (PDict d) ->
  d !! "num" = Some (PInt n) ->
  n <> 0 ->
  connect_body env message w =
    if n <=? last_handled_message_num (self w)
    then (Ok (Dropped (PDict d)), w)
    else (dispatch env (PDict d) >> on_new_message env (PDict d) >>
          ret (Handled (PDict d)))
           {| self := set_last_handled_message_num n (self w); trace := trace w |}.
Proof.
  intros Hdec Hnum Hnz. pose proof (sequencer_int d n w Hnum Hnz) as Hseq.
  destruct (n <=? last_handled_message_num (self w)).
  - apply (connect_body_dropped env message (PDict d) w w Hdec Hseq).
  - apply (connect_body_accepted env message (PDict d) w _ Hdec Hseq).
Qed.

(** A turn whose event passed the check ends in [Handled] or in an
    exception, never in [Dropped]. *)
Lemma handled_or_raised (env : Env) (data : pyval) (w : World) :
  let r := (dispatch env data >> on_new_message env data >> ret (Handled data)) w in
  fst r = Ok (Handled data) \/ exists e, fst r = Exc e.
Proof.
  cbv zeta. unfold bind.
  destruct (dispatch env data w) as [[[]|e] w1]; [|right; exists e; reflexivity].
  destruct (on_new_message env data w1) as [[[]|e] w2];
    [left; reflexivity|right; exists e; reflexivity].
Qed.

Lemma turn_kept (env : Env) (data : pyval) :
  preserves kept_or_reset
    (dispatch env data >> on_new_message env data >> ret (Handled data)).
Proof.
  apply (preserves_bind _ kept_or_reset_trans); [apply dispatch_kept|intros _].
  frame kept_or_reset_refl kept_or_reset_trans.
Qed.

(** C9: an event whose [num] is 0 passes the check whatever the last
    handled number is, exactly as an event without [num] does: the check
    returns [true] and leaves the world, hence [last_handled_message_num],
    as it was, and the turn goes on to dispatch the event. *)
Theorem num_zero_like_absent (env : Env) (message : string)
        (d : gmap string pyval) (w : World) :
  json_loads env message = Some (PDict d) ->
  d !! "num" = Some (PInt 0) ->
  sequencer (PDict d) w = (Ok true, w) /\
  sequencer (PDict d) w = sequencer (PDict (delete "num" d)) w /\
  connect_body env message w =
    (dispatch env (PDict d) >> on_new_message env (PDict d) >>
     ret (Handled (PDict d))) w.
Proof.
  intros Hd Hn.
  assert (Hz : sequencer (PDict d) w = (Ok true, w)) by (apply sequencer_zero, Hn).
  repeat split.
  - exact Hz.
  - rewrite Hz. symmetry. apply sequencer_absent. apply lookup_delete_eq.
  - apply connect_body_accepted; assumption.
Qed.

Lemma num_zero_like_absent_witness :
  0 <= last_handled_message_num after_five /\
  sequencer (numbered "stopping" 0) (fresh_world after_five) =
    (Ok true, fresh_world after_five).
Proof.
  split; [cbn; lia|].
  apply (num_zero_like_absent demo_env "stopping#0"
           {[ "type" := PStr "stopping"; "num" := PInt 0 ]}
           (fresh_world after_five)); reflexivity.
Defined.

(** C1, at the input where the code departs from it: a new client
    receives an event numbered 5 and then, twice, an event numbered 0.
    Since 0 <= 5 the claim has both dropped; the code handles both, mutates
    the session, and leaves the last handled number at 5, whereas an event
    numbered 3 in the same place is dropped. *)
Theorem num_zero_bypasses_sequencer :
  let '(vs, s, w') :=
    connect_loop demo_env ["warn#5"; "stopping#0"; "stopping#0"]
      (fresh_world (init PNone)) in
  vs = [Handled (numbered "warn" 5); Handled (numbered "stopping" 0);
        Handled (numbered "stopping" 0)] /\
  s = SocketClosed /\
  server_status (self w') = STOPPING /\
  running (self w') = true /\
  last_handled_message_num (self w') = 5 /\
  fst (fst (connect_loop demo_env ["warn#5"; "warn#3"] (fresh_world (init PNone)))) =
    [Handled (numbered "warn" 5); Dropped (numbered "warn" 3)].
Proof. vm_compute. repeat split; reflexivity. Qed.

(** C3, as the code has it: a frame that does not decode ends the receive
    loop. The decoding error leaves the turn and the loop, the frames
    after it are never received, and the object is as it was. *)
Theorem undecodable_frame_ends_loop (env : Env) (message : string)
        (rest : list string) (w : World) :
  json_loads env message = None ->
  connect_loop env (message :: rest) w =
    ([], Raised (JSONDecodeError message),
     {| self := self w; trace := trace w ++ [ERecv message] |}).
Proof.
  intros Hd. cbn [connect_loop].
  rewrite connect_body_undecodable by exact Hd. reflexivity.
Qed.

Lemma undecodable_frame_ends_loop_witness :
  connect_loop demo_env ["{"; "starting#4"] (fresh_world (init PNone)) =
    ([], Raised (JSONDecodeError "{"),
     {| self := init PNone; trace := [ERecv "{"] |}).
Proof.
  apply (undecodable_frame_ends_loop demo_env "{" ["starting#4"]
           (fresh_world (init PNone))).
  reflexivity.
Defined.

(** C3 as stated fails: after the frame "{" the loop does not go on to
    the well-formed frame that follows; no turn completes and the loop has
    stopped with the decoding error. *)
Lemma undecodable_frame_not_survived :
  json_loads demo_env "{" = None /\
  json_loads demo_env "starting#4" = Some starting_event /\
  let '(vs, s, w') :=
    connect_loop demo_env ["{"; "starting#4"] (fresh_world (init PNone)) in
  vs = [] /\ s = Raised (JSONDecodeError "{") /\
  ~ In (ERecv "starting#4") (trace w') /\ running (self w') = false.
Proof.
  vm_compute. repeat split; try reflexivity.
  intros [H|[]]. discriminate H.
Qed.

(** ** Sequences of numbered events *)

Lemma sequencer_fresh (d : gmap string pyval) (n : Z) (w : World) :
  d !! "num" = Some (PInt n) ->
  -1 <= last_handled_message_num (self w) < n ->
  exists w1,
    sequencer (PDict d) w = (Ok true, w1) /\
    trace w1 = trace w /\
    -1 <= last_handled_message_num (self w1) <= n.
Proof.
  intros Hn Hlast. destruct (Z.eq_dec n 0) as [->|Hnz].
  - exists w. rewrite (sequencer_zero d w Hn). repeat split; lia.
  - rewrite (sequencer_int d n w Hn Hnz).
    destruct (Z.leb_spec n (last_handled_message_num (self w))); [lia|].
    eexists. split; [reflexivity|]. cbn. repeat split; lia.
Qed.

Lemma turn_bounds (env : Env) (data : pyval) (n : Z) (w1 : World) :
  -1 <= last_handled_message_num (self w1) <= n ->
  let w2 := snd ((dispatch env data >> on_new_message env data >>
                  ret (Handled data)) w1) in
  -1 <= last_handled_message_num (self w2) <= n.
Proof.
  intros Hb w2. destruct (turn_kept env data w1) as [H|H];
    fold w2 in H; rewrite H; lia.
Qed.

Lemma ascending_loop (env : Env) (frames : list string) :
  forall (ds : list (gmap string pyval)) (lo : Z) (w : World)
         (vs : list verdict) (s : stop) (w' : World),
    -1 <= last_handled_message_num (self w) <= lo ->
    ascending env lo frames ds ->
    connect_loop env frames w = (vs, s, w') ->
    (exists k, vs = map Handled (firstn k (map PDict ds))) /\
    (s = SocketClosed -> vs = map Handled (map PDict ds)).
Proof.
  induction frames as [|message frames IH]; intros ds lo w vs s w' Hb Hasc Hrun.
  - destruct ds; [|contradiction]. cbn in Hrun. inversion Hrun; subst.
    split; [exists 0%nat|]; reflexivity.
  - destruct ds as [|d ds]; [contradiction|].
    destruct Hasc as (Hdec & n & Hnum & Hlt & Hasc).
    cbn [connect_loop] in Hrun.
    destruct (sequencer_fresh d n (emit (ERecv message) w) Hnum)
      as (w1 & Hseq & _ & Hb1); [cbn; lia|].
    rewrite (connect_body_accepted env message (PDict d) _ w1 Hdec Hseq) in Hrun.
    pose proof (turn_bounds env (PDict d) n w1 Hb1) as Hb2. cbv zeta in Hb2.
    destruct (handled_or_raised env (PDict d) w1) as [Hok|[e He]];
      destruct ((dispatch env (PDict d) >> on_new_message env (PDict d) >>
                 ret (Handled (PDict d))) w1) as [r w2];
      cbn [fst snd] in *; subst r.
    + destruct (connect_loop env frames w2) as [[vs' s'] w''] eqn:Hrest.
      inversion Hrun; subst.
      destruct (IH ds n w2 vs' s w' Hb2 Hasc Hrest) as [[k Hk] Hall].
      split.
      * exists (S k). cbn. rewrite Hk. reflexivity.
      * intros Hs. cbn. rewrite (Hall Hs). reflexivity.
    + inversion Hrun; subst. split; [exists 0%nat; reflexivity|discriminate].
Qed.

(** C4, amended to what the check does: when the frames carry integer
    numbers that increase strictly, the first above the last handled number
    (itself at least -1, as it is initially), no event is dropped: the
    events handled are the events received, each once and in order, up to
    the turn that raised if one did, and all of them when the loop stopped
    because the socket closed. *)
Theorem increasing_events_all_handled (env : Env) (frames : list string)
        (ds : list (gmap string pyval)) (w : World)
        (vs : list verdict) (s : stop) (w' : World) :
  -1 <= last_handled_message_num (self w) ->
  ascending env (last_handled_message_num (self w)) frames ds ->
  connect_loop env frames w = (vs, s, w') ->
  (exists k, vs = map Handled (firstn k (map PDict ds))) /\
  (s = SocketClosed -> vs = map Handled (map PDict ds)).
Proof.
  intros Hb Hasc Hrun.
  apply (ascending_loop env frames ds (last_handled_message_num (self w)) w vs s w');
    [lia|assumption|assumption].
Qed.

Lemma increasing_events_all_handled_witness :
  fst (fst (connect_loop demo_env ["starting#4"; "running#5"; "idle#7"]
              (fresh_world (init PNone)))) =
    [Handled starting_event; Handled running_event; Handled (numbered "idle" 7)].
Proof.
  destruct (connect_loop demo_env ["starting#4"; "running#5"; "idle#7"]
              (fresh_world (init PNone))) as [[vs s] w'] eqn:Hrun.
  assert (Hs : s = SocketClosed) by (vm_compute in Hrun; congruence).
  refine (proj2 (increasing_events_all_handled demo_env
            ["starting#4"; "running#5"; "idle#7"]
            [ {[ "type" := PStr "starting"; "launchId" := PStr "abc";
                 "num" := PInt 4 ]};
              {[ "type" := PStr "running"; "launchId" := PStr "abc";
                 "socket" := PStr "1.2.3.4:1234"; "num" := PInt 5 ]};
              {[ "type" := PStr "idle"; "num" := PInt 7 ]} ]
            (fresh_world (init PNone)) vs s w' _ _ Hrun) Hs).
  - cbn. lia.
  - cbn. repeat (split; [reflexivity|]; eexists; split; [reflexivity|]; split; [lia|]).
    exact I.
Defined.

(** C4 as stated fails: 5, 5 is a non-decreasing sequence, and the second
    event is dropped, since 5 <= 5. *)
Lemma repeated_number_dropped :
  fst (fst (connect_loop demo_env ["warn#5"; "error#5"]
              (fresh_world (init PNone)))) =
    [Handled (numbered "warn" 5); Dropped (numbered "error" 5)].
Proof. vm_compute. reflexivity. Qed.

(** ** The dispatcher on the server-state events *)

Lemma dispatch_idle (env : Env) (d : gmap string pyval) (w : World) :
  d !! "type" = Some (PStr "idle") ->
  dispatch env (PDict d) w =
    (Ok tt,
     {| self := set_server_address PNone
                  (set_last_handled_message_num (-1)
                     (set_server_status OFFLINE
                        (set_launch_id PNone (set_running false (self w)))));
        trace := trace w |}).
Proof.
  intros Ht. unfold dispatch, bind, subscript, of_option. rewrite Ht.
  reflexivity.
Qed.

Lemma dispatch_starting (env : Env) (d : gmap string pyval) (w : World) :
  d !! "type" = Some (PStr "starting") ->
  dispatch env (PDict d) w =
    (Ok tt,
     {| self := set_server_status STARTING
                  (set_launch_id (dict_get d "launchId")
                     (set_running true (self w)));
        trace := trace w |}).
Proof.
  intros Ht. unfold dispatch, bind, subscript, of_option. rewrite Ht.
  reflexivity.
Qed.

Lemma dispatch_running (env : Env) (d : gmap string pyval) (w : World) :
  d !! "type" = Some (PStr "running") ->
  dispatch env (PDict d) w =
    (Ok tt,
     {| self := set_server_status RUNNING
                  (set_server_address (dict_get d "socket")
                     (set_launch_id (dict_get d "launchId")
                        (set_running true (self w))));
        trace := trace w |}).
Proof.
  intros Ht. unfold dispatch, bind, subscript, of_option. rewrite Ht.
  reflexivity.
Qed.

(** The listeners do not write the object: after a turn it is as the
    dispatcher left it, whether or not a listener raised. *)
Lemma turn_self (env : Env) (data : pyval) (w : World) :
  self (snd ((dispatch env data >> on_new_message env data >>
              ret (Handled data)) w)) =
  self (snd (dispatch env data w)).
Proof.
  unfold bind at 1. destruct (dispatch env data w) as [[[]|e] w1]; [|reflexivity].
  cbn [snd]. symmetry.
  apply (preserves_bind eq (@eq_trans _) (on_new_message env data)
           (fun _ => ret (Handled data))).
  - apply preserves_on_new_message; [reflexivity|apply @eq_trans].
  - intros _ w2. reflexivity.
Qed.

Lemma turn_quiet (env : Env) (data : pyval) (w w1 : World) :
  dispatch env data w = (Ok tt, w1) ->
  message_listeners (self w1) = [] ->
  (dispatch env data >> on_new_message env data >> ret (Handled data)) w =
    (Ok (Handled data), w1).
Proof.
  intros Hd Hl. unfold bind at 1. rewrite Hd.
  unfold bind, on_new_message, get_self, bind. rewrite Hl. reflexivity.
Qed.

(** C8: from a new client, a [starting] event numbered 4 and then a
    [running] event numbered 5, with launchId "abc" and socket
    "1.2.3.4:1234", are both handled and leave running = true, launchId =
    "abc", serverAddress = "1.2.3.4:1234", status = RUNNING; and whenever a
    [running] event passes the sequence check, the turn leaves running =
    true, the launch id and the server address the event's [launchId] and
    [socket] ([None] for an absent field), and the status RUNNING. *)
Theorem running_event_sets_session (env : Env) :
  (forall (m1 m2 : string) (token : pyval),
      json_loads env m1 = Some starting_event ->
      json_loads env m2 = Some running_event ->
      exists w',
        connect_loop env [m1; m2] (fresh_world (init token)) =
          ([Handled starting_event; Handled running_event], SocketClosed, w') /\
        running (self w') = true /\
        launch_id (self w') = PStr "abc" /\
        server_address (self w') = PStr "1.2.3.4:1234" /\
        server_status (self w') = RUNNING) /\
  (forall (message : string) (d : gmap string pyval) (w w1 : World),
      json_loads env message = Some (PDict d) ->
      d !! "type" = Some (PStr "running") ->
      sequencer (PDict d) w = (Ok true, w1) ->
      let c' := self (snd (connect_body env message w)) in
      running c' = true /\
      launch_id c' = dict_get d "launchId" /\
      server_address c' = dict_get d "socket" /\
      server_status c' = RUNNING).
Proof.
  split.
  - intros m1 m2 token H1 H2. eexists. cbn [connect_loop].
    erewrite (connect_body_accepted env m1 starting_event); [|exact H1|].
    2:{ unfold starting_event.
        rewrite sequencer_int with (n := 4); [|vm_compute; reflexivity|lia].
        reflexivity. }
    erewrite turn_quiet;
      [|unfold starting_event; apply dispatch_starting; vm_compute; reflexivity
       |reflexivity].
    erewrite (connect_body_accepted env m2 running_event); [|exact H2|].
    2:{ unfold running_event.
        rewrite sequencer_int with (n := 5); [|vm_compute; reflexivity|lia].
        reflexivity. }
    erewrite turn_quiet;
      [|unfold running_event; apply dispatch_running; vm_compute; reflexivity
       |reflexivity].
    split; [reflexivity|]. repeat split; vm_compute; reflexivity.
  - intros message d w w1 Hdec Htype Hseq c'. subst c'.
    rewrite (connect_body_accepted env message (PDict d) w w1 Hdec Hseq).
    rewrite turn_self, (dispatch_running env d w1 Htype).
    repeat split.
Qed.

Lemma running_event_sets_session_witness :
  exists w',
    connect_loop demo_env ["starting#4"; "running#5"] (fresh_world (init PNone)) =
      ([Handled starting_event; Handled running_event], SocketClosed, w') /\
    running (self w') = true /\
    launch_id (self w') = PStr "abc" /\
    server_address (self w') = PStr "1.2.3.4:1234" /\
    server_status (self w') = RUNNING.
Proof.
  apply (proj1 (running_event_sets_session demo_env) "starting#4" "running#5" PNone);
    reflexivity.
Defined.

(** C5: when an [idle] event has passed the sequence check, whatever
    [num] it carries, the turn leaves [last_handled_message_num] at -1; and
    in the world it leaves, the next frame, if its event carries an integer
    [num] >= 0, passes the check and is dispatched. *)
Theorem idle_resets_sequence (env : Env) (message : string)
        (d : gmap string pyval) (w w1 : World) :
  json_loads env message = Some (PDict d) ->
  d !! "type" = Some (PStr "idle") ->
  sequencer (PDict d) w = (Ok true, w1) ->
  let w' := snd (connect_body env message w) in
  last_handled_message_num (self w') = -1 /\
  forall (message' : string) (d' : gmap string pyval) (n : Z),
    json_loads env message' = Some (PDict d') ->
    d' !! "num" = Some (PInt n) ->
    0 <= n ->
    exists w1',
      sequencer (PDict d') (emit (ERecv message') w') = (Ok true, w1') /\
      connect_body env message' (emit (ERecv message') w') =
        (dispatch env (PDict d') >> on_new_message env (PDict d') >>
         ret (Handled (PDict d'))) w1'.
Proof.
  intros Hdec Htype Hseq w'.
  assert (Hlast : last_handled_message_num (self w') = -1).
  { subst w'. rewrite (connect_body_accepted env message (PDict d) w w1 Hdec Hseq).
    rewrite turn_self, (dispatch_idle env d w1 Htype). reflexivity. }
  split; [exact Hlast|].
  intros message' d' n Hdec' Hnum Hn.
  destruct (sequencer_fresh d' n (emit (ERecv message') w') Hnum)
    as (w1' & Hseq' & _); [cbn [emit self]; lia|].
  exists w1'. split; [exact Hseq'|].
  apply connect_body_accepted; assumption.
Qed.

Lemma idle_resets_sequence_witness :
  last_handled_message_num
    (self (snd (connect_body demo_env "idle#7" (fresh_world after_five)))) = -1.
Proof.
  apply (idle_resets_sequence demo_env "idle#7"
           {[ "type" := PStr "idle"; "num" := PInt 7 ]}
           (fresh_world after_five)
           {| self := set_last_handled_message_num 7 after_five; trace := [] |});
    vm_compute; reflexivity.
Defined.

(** ** The REST operations and the sync flags *)

(** C6, amended to what the code does: [toggle_mod] sends its request
    with [mods_sync] already false; for a response whose status is from 400
    to 599, which is what the library's [Response.ok] takes for a failure,
    it sets [mods_sync] to true again and raises an exception whose message
    ends in the response body; for a response of any other status, 2xx or
    not, it returns with [mods_sync] false. *)
Theorem toggle_mod_sync_flag (env : Env) (mod_id : Z) (enabled : bool)
        (w : World) (resp : response) :
  let c0 := set_mods_sync false (self w) in
  let req := {| url := api "/api/mod/toggle";
                body := Form [("visitSecret", visit_secret (self w));
                              ("modId", PInt mod_id);
                              ("enabled", PBool enabled)];
                stream := false |} in
  let out := toggle_mod env mod_id enabled w in
  requests_post env (trace w) req = inr resp ->
  trace (snd out) = (trace w ++ [EPost c0 req])%list /\
  mods_sync c0 = false /\
  (400 <= status_code resp < 600 ->
   fst out = Exc (Exception ("Error in toggling mod: " ++ text resp)) /\
   mods_sync (self (snd out)) = true) /\
  (status_code resp < 400 \/ 600 <= status_code resp ->
   fst out = Ok tt /\ mods_sync (self (snd out)) = false).
Proof.
  intros c0 req out Hpost. subst out.
  unfold toggle_mod, bind, modify, get_self, post. cbn [self trace emit].
  fold c0. change (visit_secret c0) with (visit_secret (self w)). fold req.
  rewrite Hpost. unfold ok.
  destruct (Z.leb_spec 400 (status_code resp)), (Z.ltb_spec (status_code resp) 600);
    cbn; repeat split; intros; try reflexivity; lia.
Qed.

Lemma toggle_mod_sync_flag_witness :
  fst (toggle_mod refusing_env 7 true (fresh_world synced)) =
    Exc (Exception "Error in toggling mod: no") /\
  mods_sync (self (snd (toggle_mod refusing_env 7 true (fresh_world synced)))) = true.
Proof.
  apply (toggle_mod_sync_flag refusing_env 7 true (fresh_world synced)
           (reply 500 "no")); [reflexivity|cbn; lia].
Defined.

(** C6 as stated fails: a 304 is no success (it is not a 2xx), and on it
    [toggle_mod] raises nothing and leaves [mods_sync] false, where the
    claim has it restored to true with an error. *)
Lemma toggle_mod_takes_304_for_success :
  let out := toggle_mod not_modified_env 7 true (fresh_world synced) in
  requests_post not_modified_env []
    {| url := "https://factorio.zone/api/mod/toggle";
       body := Form [("visitSecret", PNone); ("modId", PInt 7);
                     ("enabled", PBool true)];
       stream := false |} = inr (reply 304 "") /\
  ~ (200 <= status_code (reply 304 "") < 300) /\
  fst out = Ok tt /\
  mods_sync (self (snd out)) = false.
Proof.
  cbv zeta. split; [reflexivity|]. split; [cbn; lia|]. split; reflexivity.
Qed.




(** ** The size guards of the uploads *)

Lemma upload_mod_oversize (env : Env) (m : Mod.t) (cb : option callable)
      (w : World) :
  268435456 < Mod.size m ->
  upload_mod env m cb w =
    (Exc (match builtin_open env (trace w) (Mod.filePath m) "rb" with
          | Some e => e
          | None => Exception "Mod file must be under 256MB"
          end),
     emit (EOpen (Mod.filePath m) "rb") w).
Proof.
  intros Hsize. unfold upload_mod, bind at 1, open_.
  destruct (builtin_open env (trace w) (Mod.filePath m) "rb"); [reflexivity|].
  destruct (Z.ltb_spec 268435456 (Mod.size m)); [reflexivity|lia].
Qed.

Lemma upload_save_oversize (env : Env) (save : Save.t) (cb : option callable)
      (w : World) :
  100663296 < Save.size save ->
  upload_save env save cb w =
    (Exc (match builtin_open env (trace w) (Save.filePath save) "rb" with
          | Some e => e
          | None => Exception "Save file must be under 96MB"
          end),
     emit (EOpen (Save.filePath save) "rb") w).
Proof.
  intros Hsize. unfold upload_save, bind at 1, open_.
  destruct (builtin_open env (trace w) (Save.filePath save) "rb"); [reflexivity|].
  destruct (Z.ltb_spec 100663296 (Save.size save)); [reflexivity|lia].
Qed.

(** C7, amended to what the code does: for a mod of more than 268435456
    bytes, [upload_mod] raises after opening the file and before any
    request, its only effect being that [open]: the size-limit error when
    the file opens, the error of [open] when it does not. Likewise
    [upload_save] for a save of more than 100663296 bytes. *)
Theorem oversize_upload_fails_locally (env : Env) (w : World) :
  (forall (m : Mod.t) (cb : option callable),
      268435456 < Mod.size m ->
      upload_mod env m cb w =
        (Exc (match builtin_open env (trace w) (Mod.filePath m) "rb" with
              | Some e => e
              | None => Exception "Mod file must be under 256MB"
              end),
         {| self := self w;
            trace := trace w ++ [EOpen (Mod.filePath m) "rb"] |})) /\
  (forall (save : Save.t) (cb : option callable),
      100663296 < Save.size save ->
      upload_save env save cb w =
        (Exc (match builtin_open env (trace w) (Save.filePath save) "rb" with
              | Some e => e
              | None => Exception "Save file must be under 96MB"
              end),
         {| self := self w;
            trace := trace w ++ [EOpen (Save.filePath save) "rb"] |})).
Proof.
  split; intros x cb Hsize.
  - apply upload_mod_oversize, Hsize.
  - apply upload_save_oversize, Hsize.
Qed.

Lemma oversize_upload_fails_locally_witness :
  upload_mod demo_env big_mod None (fresh_world synced) =
    (Exc (Exception "Mod file must be under 256MB"),
     {| self := synced; trace := [EOpen "/mods/big.zip" "rb"] |}) /\
  upload_save demo_env big_save None (fresh_world synced) =
    (Exc (Exception "Save file must be under 96MB"),
     {| self := synced; trace := [EOpen "/saves/big.zip" "rb"] |}).
Proof.
  split.
  - apply (proj1 (oversize_upload_fails_locally demo_env (fresh_world synced))
             big_mod None).
    vm_compute. reflexivity.
  - apply (proj2 (oversize_upload_fails_locally demo_env (fresh_world synced))
             big_save None).
    vm_compute. reflexivity.
Defined.

(** C7 as stated fails: a mod of 300 MiB whose file cannot be opened
    makes [upload_mod] raise the error of [open], not the size-limit
    error. *)
Lemma oversize_mod_without_file :
  268435456 < Mod.size big_mod /\
  fst (upload_mod bare_env big_mod None (fresh_world synced)) =
    Exc (OSError "/mods/big.zip") /\
  fst (upload_mod bare_env big_mod None (fresh_world synced)) <>
    Exc (Exception "Mod file must be under 256MB").
Proof.
  split; [vm_compute; reflexivity|]. split; [vm_compute; reflexivity|].
  vm_compute. discriminate.
Qed.

(** C10: an upload stopped by its size guard leaves the object, and so
    [mods_sync] and [saves_sync], as it found it, and has sent no request:
    the guard comes before the assignment that clears the flag. *)
Theorem oversize_upload_keeps_sync_flags (env : Env) (w : World) :
  (forall (m : Mod.t) (cb : option callable),
      268435456 < Mod.size m ->
      let w' := snd (upload_mod env m cb w) in
      mods_sync (self w') = mods_sync (self w) /\
      self w' = self w /\
      forall c req, ~ In (EPost c req) (skipn (length (trace w)) (trace w'))) /\
  (forall (save : Save.t) (cb : option callable),
      100663296 < Save.size save ->
      let w' := snd (upload_save env save cb w) in
      saves_sync (self w') = saves_sync (self w) /\
      self w' = self w /\
      forall c req, ~ In (EPost c req) (skipn (length (trace w)) (trace w'))).
Proof.
  split; intros x cb Hsize w'; subst w'.
  - rewrite (upload_mod_oversize env x cb w Hsize). cbn [snd emit self trace].
    repeat split. intros c req.
    rewrite skipn_app, skipn_all, Nat.sub_diag. cbn. intros [H|[]]. discriminate H.
  - rewrite (upload_save_oversize env x cb w Hsize). cbn [snd emit self trace].
    repeat split. intros c req.
    rewrite skipn_app, skipn_all, Nat.sub_diag. cbn. intros [H|[]]. discriminate H.
Qed.

Lemma oversize_upload_keeps_sync_flags_witness :
  mods_sync (self (snd (upload_mod demo_env big_mod None (fresh_world synced)))) = true /\
  saves_sync (self (snd (upload_save demo_env big_save None (fresh_world synced)))) = true.
Proof.
  split.
  - apply (proj1 (oversize_upload_keeps_sync_flags demo_env (fresh_world synced))
             big_mod None).
    vm_compute. reflexivity.
  - apply (proj2 (oversize_upload_keeps_sync_flags demo_env (fresh_world synced))
             big_save None).
    vm_compute. reflexivity.
Defined.


(** * Further properties of the client *)

(** ** Invariants of the receive loop *)

Lemma preserves_weaken {A} (R R' : FZClient -> FZClient -> Prop) (c : M A) :
  (forall a b, R a b -> R' a b) -> preserves R c -> preserves R' c.
Proof. intros Himp Hc w. apply Himp, Hc. Qed.

Section LoopPreserves.

Context (R : FZClient -> FZClient -> Prop).
Hypothesis R_refl : forall c, R c c.
Hypothesis R_trans : forall a b c, R a b -> R b c -> R a c.
Context (env : Env).
Hypothesis R_sequencer : forall data, preserves R (sequencer data).
Hypothesis R_dispatch : forall data, preserves R (dispatch env data).

Lemma preserves_connect_body (message : string) :
  preserves R (connect_body env message).
Proof.
  unfold connect_body.
  apply (preserves_bind _ R_trans); [apply (preserves_of_option _ R_refl)|intros data].
  apply (preserves_bind _ R_trans); [apply R_sequencer|intros [|]].
  - apply (preserves_bind _ R_trans); [apply R_dispatch|intros _].
    apply (preserves_bind _ R_trans);
      [apply (preserves_on_new_message _ R_refl R_trans)|intros _].
    apply (preserves_ret _ R_refl).
  - apply (preserves_ret _ R_refl).
Qed.

Lemma preserves_connect_loop (frames : list string) :
  forall w, R (self w) (self (snd (connect_loop env frames w))).
Proof.
  induction frames as [|message frames IH]; intros w; cbn [connect_loop].
  - apply R_refl.
  - pose proof (preserves_connect_body message (emit (ERecv message) w)) as Hb.
    cbn [emit self] in Hb.
    destruct (connect_body env message (emit (ERecv message) w)) as [[v|e] w1];
      cbn [snd] in *; [|exact Hb].
    specialize (IH w1). destruct (connect_loop env frames w1) as [[vs s] w2].
    cbn [snd] in *. eapply R_trans; eassumption.
Qed.

End LoopPreserves.

Lemma flags_kept_refl (c : FZClient) : flags_kept c c.
Proof. split; auto. Qed.

Lemma flags_kept_trans (a b c : FZClient) :
  flags_kept a b -> flags_kept b c -> flags_kept a c.
Proof. unfold flags_kept. intros [H1 H2] [H3 H4]. split; auto. Qed.

Lemma sequencer_flags (data : pyval) : preserves flags_kept (sequencer data).
Proof.
  unfold sequencer. frame flags_kept_refl flags_kept_trans; try (split; auto).
Qed.

Lemma dispatch_flags (env : Env) (data : pyval) :
  preserves flags_kept (dispatch env data).
Proof.
  unfold dispatch.
  frame flags_kept_refl flags_kept_trans; try (split; cbn; auto).
Qed.

Lemma connect_loop_flags (env : Env) (frames : list string) (w : World) :
  flags_kept (self w) (self (snd (connect_loop env frames w))).
Proof.
  apply (preserves_connect_loop flags_kept flags_kept_refl flags_kept_trans env
           sequencer_flags (dispatch_flags env) frames w).
Qed.

(** X1: the receive loop never clears a sync flag: over any frames and in
    any environment, a flag that is set when the loop starts is set when it
    stops. Only the REST operations clear the flags. *)
Theorem receive_loop_keeps_sync_flags (env : Env) (frames : list string)
        (w : World) :
  let w' := snd (connect_loop env frames w) in
  (mods_sync (self w) = true -> mods_sync (self w') = true) /\
  (saves_sync (self w) = true -> saves_sync (self w') = true).
Proof. apply connect_loop_flags. Qed.

Lemma receive_loop_keeps_sync_flags_witness :
  mods_sync (self (snd (connect_loop demo_env ["idle#7"; "{"] (fresh_world synced)))) = true.
Proof.
  apply (receive_loop_keeps_sync_flags demo_env ["idle#7"; "{"] (fresh_world synced)).
  reflexivity.
Defined.

Lemma sequencer_not_lowered (data : pyval) : preserves not_lowered (sequencer data).
Proof.
  intros w. unfold not_lowered, sequencer, bind, py_get, get_self, py_le, as_int.
  destruct data; cbn; try lia.
  destruct (truthy (dict_get d "num")); cbn; [|lia].
  destruct (int_value (dict_get d "num")) as [z|]; cbn; [|lia].
  destruct (Z.leb_spec z (last_handled_message_num (self w))); cbn; lia.
Qed.

Lemma floor_kept_refl (c : FZClient) : floor_kept c c.
Proof. intros H. exact H. Qed.

Lemma floor_kept_trans (a b c : FZClient) :
  floor_kept a b -> floor_kept b c -> floor_kept a c.
Proof. unfold floor_kept. auto. Qed.

(** X2: with integer sequence numbers the last handled number never falls
    below its initial value -1: when every frame that is an object with
    [num] carries an integer there, and the last handled number is at least
    -1 when the receive loop starts, it is at least -1 when the loop stops. *)
Theorem sequence_number_floor (env : Env) (frames : list string) (w : World) :
  Forall (integer_num env) frames ->
  -1 <= last_handled_message_num (self w) ->
  -1 <= last_handled_message_num (self (snd (connect_loop env frames w))).
Proof.
  intros _.
  apply (preserves_connect_loop floor_kept floor_kept_refl floor_kept_trans env).
  - intros data. apply (preserves_weaken not_lowered); [|apply sequencer_not_lowered].
    unfold not_lowered, floor_kept. intros a b Hab Ha. lia.
  - intros data. apply (preserves_weaken kept_or_reset); [|apply dispatch_kept].
    unfold kept_or_reset, floor_kept. intros a b [Hab|Hab] Ha; lia.
Qed.

Lemma sequence_number_floor_witness :
  -1 <= last_handled_message_num
          (self (snd (connect_loop demo_env ["warn#5"; "idle#7"; "warn#3"]
                        (fresh_world (init PNone))))).
Proof.
  apply (sequence_number_floor demo_env ["warn#5"; "idle#7"; "warn#3"]
           (fresh_world (init PNone))).
  - repeat constructor; intros d v Hd Hv; vm_compute in Hd; injection Hd as <-;
      vm_compute in Hv; injection Hv as <-; eexists; reflexivity.
  - cbn. lia.
Defined.

Lemma preserves_at {A} (R : FZClient -> FZClient -> Prop) (c : M A) (w : World) :
  preserves R c -> R (self w) (self (snd (c w))).
Proof. intros H. apply H. Qed.

Lemma py_eq_str_false (v : pyval) (s : string) :
  v <> PStr s -> py_eq_str v s = false.
Proof.
  destruct v as [| | |t| |]; cbn; auto. intros H.
  destruct (String.eqb_spec t s); [subst; congruence|reflexivity].
Qed.

Lemma same_number_refl (c : FZClient) : same_number c c.
Proof. reflexivity. Qed.

Lemma same_number_trans (a b c : FZClient) :
  same_number a b -> same_number b c -> same_number a c.
Proof. unfold same_number. congruence. Qed.

(** Outside its [idle] branch the dispatcher leaves the last handled
    number alone, also when it raises. *)
Lemma dispatch_keeps_number (env : Env) (d : gmap string pyval) (w : World) :
  d !! "type" <> Some (PStr "idle") ->
  last_handled_message_num (self (snd (dispatch env (PDict d) w))) =
  last_handled_message_num (self w).
Proof.
  intros Hn. unfold dispatch, bind at 1, subscript, of_option.
  destruct (d !! "type") as [t|] eqn:Ht; [|reflexivity]. cbn [ret].
  assert (Hidle : py_eq_str t "idle" = false)
    by (apply py_eq_str_false; congruence).
  rewrite Hidle. cbv iota.
  refine (preserves_at same_number _ w _).
  frame same_number_refl same_number_trans; reflexivity.
Qed.

(** X3: with integer sequence numbers only an [idle] event lowers the last
    handled number: a turn of the receive loop on a frame that does not
    decode to an [idle] event and whose [num], if it has one, is an integer
    (decodable or not, handled, dropped or ending in an exception) leaves
    the number where it was or higher. *)
Theorem only_idle_lowers_sequence_number (env : Env) (message : string)
        (w : World) :
  integer_num env message ->
  (forall d, json_loads env message = Some (PDict d) ->
             d !! "type" <> Some (PStr "idle")) ->
  last_handled_message_num (self w) <=
  last_handled_message_num (self (snd (connect_body env message w))).
Proof.
  intros _ Hn. unfold connect_body, bind at 1, of_option.
  destruct (json_loads env message) as [data|]; [|cbn; lia]. cbn [ret].
  unfold bind at 1. pose proof (sequencer_not_lowered data w) as Hseq.
  unfold not_lowered in Hseq.
  destruct (sequencer data w) as [[[|]|e] w1] eqn:Hs; cbn [snd] in *; try exact Hseq.
  rewrite turn_self. destruct data as [| | | | |d]; try (cbn in Hs; discriminate Hs).
  rewrite (dispatch_keeps_number env d w1 (Hn d eq_refl)). exact Hseq.
Qed.

Lemma only_idle_lowers_sequence_number_witness :
  5 <= last_handled_message_num
         (self (snd (connect_body demo_env "stopping#0" (fresh_world after_five)))).
Proof.
  apply (only_idle_lowers_sequence_number demo_env "stopping#0"
           (fresh_world after_five)).
  - intros d v Hd Hv. vm_compute in Hd. injection Hd as <-.
    vm_compute in Hv. injection Hv as <-. eexists. reflexivity.
  - intros d Hd. vm_compute in Hd. injection Hd as <-. vm_compute. discriminate.
Defined.

(** X4: a frame received again is dropped. When the event carries an
    integer number other than 0 and is not an [idle] event, then after a
    turn on its frame that completed, handled or dropped, the turn on the
    same frame drops it and leaves the world exactly as it was. *)
Theorem retransmission_dropped (env : Env) (message : string)
        (d : gmap string pyval) (n : Z) (w w1 : World) (v : verdict) :
  json_loads env message = Some (PDict d) ->
  d !! "num" = Some (PInt n) ->
  n <> 0 ->
  d !! "type" <> Some (PStr "idle") ->
  connect_body env message w = (Ok v, w1) ->
  connect_body env message (emit (ERecv message) w1) =
    (Ok (Dropped (PDict d)), emit (ERecv message) w1).
Proof.
  intros Hdec Hnum Hnz Hidle Hturn.
  assert (Hle : n <= last_handled_message_num (self w1)).
  { rewrite (connect_body_nonzero env message d n w Hdec Hnum Hnz) in Hturn.
    destruct (Z.leb_spec n (last_handled_message_num (self w))).
    - inversion Hturn; subst. assumption.
    - apply (f_equal (fun r => last_handled_message_num (self (snd r)))) in Hturn.
      cbn [snd] in Hturn. rewrite turn_self, dispatch_keeps_number in Hturn by exact Hidle.
      cbn in Hturn. lia. }
  rewrite (connect_body_nonzero env message d n _ Hdec Hnum Hnz).
  cbn [emit self]. destruct (Z.leb_spec n (last_handled_message_num (self w1)));
    [reflexivity|lia].
Qed.

Lemma retransmission_dropped_witness :
  fst (fst (connect_loop demo_env ["warn#5"; "warn#5"] (fresh_world (init PNone)))) =
    [Handled (numbered "warn" 5); Dropped (numbered "warn" 5)].
Proof.
  cbn [connect_loop].
  destruct (connect_body demo_env "warn#5" (emit (ERecv "warn#5") (fresh_world (init PNone))))
    as [[v|e] w1] eqn:H1; [|vm_compute in H1; discriminate H1].
  rewrite (retransmission_dropped demo_env "warn#5"
             {[ "type" := PStr "warn"; "num" := PInt 5 ]} 5
             (emit (ERecv "warn#5") (fresh_world (init PNone))) w1 v);
    [| reflexivity | reflexivity | lia | vm_compute; discriminate | exact H1 ].
  vm_compute in H1. injection H1 as <- <-. reflexivity.
Defined.

(** X5: a frame that decodes to something other than an object ends the
    receive loop with [AttributeError], the object untouched; an object
    without [type] ends it with [KeyError], after the sequence check has
    run: a number it carried is already recorded as handled. *)
Theorem shapeless_event_ends_loop (env : Env) (message : string)
        (rest : list string) (w : World) :
  (forall data, json_loads env message = Some data ->
                (forall d, data <> PDict d) ->
                connect_loop env (message :: rest) w =
                  ([], Raised AttributeError, emit (ERecv message) w)) /\
  (forall d w1, json_loads env message = Some (PDict d) ->
                d !! "type" = None ->
                sequencer (PDict d) (emit (ERecv message) w) = (Ok true, w1) ->
                connect_loop env (message :: rest) w =
                  ([], Raised (KeyError "type"), w1)).
Proof.
  split.
  - intros data Hdec Hshape. cbn [connect_loop].
    unfold connect_body, bind at 1, of_option. rewrite Hdec. cbn [ret].
    destruct data; try reflexivity. exfalso. eapply Hshape. reflexivity.
  - intros d w1 Hdec Htype Hseq. cbn [connect_loop].
    rewrite (connect_body_accepted env message (PDict d) _ w1 Hdec Hseq).
    unfold bind at 1, dispatch, bind at 1, subscript, of_option. rewrite Htype.
    reflexivity.
Qed.

Lemma shapeless_event_ends_loop_witness :
  connect_loop sync_env ["[1]"; "mods#2"] (fresh_world (init PNone)) =
    ([], Raised AttributeError, {| self := init PNone; trace := [ERecv "[1]"] |}) /\
  connect_loop sync_env ["untyped#2"; "mods#2"] (fresh_world (init PNone)) =
    ([], Raised (KeyError "type"),
     {| self := set_last_handled_message_num 2 (init PNone);
        trace := [ERecv "untyped#2"] |}).
Proof.
  split.
  - apply (proj1 (shapeless_event_ends_loop sync_env "[1]" ["mods#2"]
                    (fresh_world (init PNone))) (PList [PInt 1])).
    + reflexivity.
    + intros d. discriminate.
  - apply (proj2 (shapeless_event_ends_loop sync_env "untyped#2" ["mods#2"]
                    (fresh_world (init PNone))) {[ "num" := PInt 2 ]}).
    + reflexivity.
    + reflexivity.
    + reflexivity.
Defined.

(** ** The first synchronisation *)

Lemma handled_inv (env : Env) (message : string) (data : pyval) (w w1 : World) :
  connect_body env message w = (Ok (Handled data), w1) ->
  exists w0 w2,
    sequencer data w = (Ok true, w0) /\
    dispatch env data w0 = (Ok tt, w2) /\
    self w1 = self w2.
Proof.
  unfold connect_body, bind at 1, of_option.
  destruct (json_loads env message) as [data0|]; [|discriminate]. cbn [ret].
  unfold bind at 1. destruct (sequencer data0 w) as [[[|]|e] w0] eqn:Hs;
    try discriminate.
  unfold bind at 1. destruct (dispatch env data0 w0) as [[[]|e] w2] eqn:Hd;
    try discriminate.
  unfold bind. pose proof (preserves_on_new_message eq (@eq_refl _) (@eq_trans _)
                             env data0 w2) as Hl.
  destruct (on_new_message env data0 w2) as [[[]|e] w3]; try discriminate.
  cbn [ret snd] in *. intros H. inversion H; subst.
  exists w0, w2. repeat split; congruence.
Qed.

Lemma dispatch_mods_ok (env : Env) (d : gmap string pyval) (w w' : World) :
  d !! "type" = Some (PStr "mods") ->
  dispatch env (PDict d) w = (Ok tt, w') ->
  mods_sync (self w') = true /\ d !! "mods" = Some (mods (self w')).
Proof.
  intros Ht. unfold dispatch, bind, subscript, of_option. rewrite Ht. cbn.
  destruct (d !! "mods"); [|discriminate]. intros H. inversion H. split; reflexivity.
Qed.

Lemma dispatch_saves_ok (env : Env) (d : gmap string pyval) (w w' : World) :
  d !! "type" = Some (PStr "options") ->
  d !! "name" = Some (PStr "saves") ->
  dispatch env (PDict d) w = (Ok tt, w') ->
  saves_sync (self w') = true /\ d !! "options" = Some (saves (self w')).
Proof.
  intros Ht Hn. unfold dispatch, bind, subscript, of_option. rewrite Ht. cbn.
  rewrite Hn. cbn.
  destruct (d !! "options"); [|discriminate]. intros H. inversion H. split; reflexivity.
Qed.

(** Once a turn of the loop has left the object with a property that the
    later turns keep, the loop stops with it. *)
Lemma handled_then_kept (env : Env) (P : FZClient -> Prop) (data : pyval) :
  (forall message w w1, connect_body env message w = (Ok (Handled data), w1) ->
                        P (self w1)) ->
  (forall frames w, P (self w) -> P (self (snd (connect_loop env frames w)))) ->
  forall frames w, In (Handled data) (fst (fst (connect_loop env frames w))) ->
                   P (self (snd (connect_loop env frames w))).
Proof.
  intros Hset Hkeep. induction frames as [|message frames IH]; intros w Hin.
  - destruct Hin.
  - cbn [connect_loop] in *.
    destruct (connect_body env message (emit (ERecv message) w)) as [[v|e] w1] eqn:Hb;
      [|destruct Hin].
    specialize (IH w1). specialize (Hkeep frames w1).
    destruct (connect_loop env frames w1) as [[vs s] w2]. cbn [fst snd] in *.
    destruct Hin as [->|Hin]; [|exact (IH Hin)].
    apply Hkeep. exact (Hset _ _ _ Hb).
Qed.

(** X6: once the receive loop has handled a [mods] event and an [options]
    event named [saves], in either order and with anything between and
    after them, both sync flags are set when it stops, and [wait_sync]
    returns at its next test of them without sleeping. *)
Theorem sync_events_release_wait_sync (env : Env) (frames : list string)
        (w : World) (dm ds : gmap string pyval) (later : list FZClient) :
  let out := connect_loop env frames w in
  In (Handled (PDict dm)) (fst (fst out)) ->
  dm !! "type" = Some (PStr "mods") ->
  In (Handled (PDict ds)) (fst (fst out)) ->
  ds !! "type" = Some (PStr "options") ->
  ds !! "name" = Some (PStr "saves") ->
  mods_sync (self (snd out)) = true /\
  saves_sync (self (snd out)) = true /\
  wait_sync (self (snd out) :: later) = Some 0%nat.
Proof.
  intros out Hm Htm Hs Hts Hns. subst out.
  assert (Hmods : mods_sync (self (snd (connect_loop env frames w))) = true).
  { apply (handled_then_kept env (fun c => mods_sync c = true) (PDict dm));
      [| |exact Hm].
    - intros message w0 w1 Hb. destruct (handled_inv _ _ _ _ _ Hb) as (wa & wb & _ & Hd & ->).
      apply (dispatch_mods_ok env dm wa wb Htm Hd).
    - intros fr w0. apply (connect_loop_flags env fr w0). }
  assert (Hsaves : saves_sync (self (snd (connect_loop env frames w))) = true).
  { apply (handled_then_kept env (fun c => saves_sync c = true) (PDict ds));
      [| |exact Hs].
    - intros message w0 w1 Hb. destruct (handled_inv _ _ _ _ _ Hb) as (wa & wb & _ & Hd & ->).
      apply (dispatch_saves_ok env ds wa wb Hts Hns Hd).
    - intros fr w0. apply (connect_loop_flags env fr w0). }
  repeat split; try assumption. cbn [wait_sync]. rewrite Hmods, Hsaves. reflexivity.
Qed.

Lemma sync_events_release_wait_sync_witness :
  wait_sync
    [self (snd (connect_loop sync_env ["saves#1"; "mods#2"; "warn#5"]
                  (fresh_world (init PNone))))] = Some 0%nat.
Proof.
  apply (sync_events_release_wait_sync sync_env ["saves#1"; "mods#2"; "warn#5"]
           (fresh_world (init PNone))
           {[ "type" := PStr "mods"; "num" := PInt 2;
              "mods" := PList [PDict {[ "id" := PInt 1; "text" := PStr "base";
                                        "enabled" := PBool true ]}] ]}
           {[ "type" := PStr "options"; "name" := PStr "saves"; "num" := PInt 1;
              "options" := PDict {[ "slot1" := PStr "slot 1 (empty)" ]} ]}
           []).
  - vm_compute. right. left. reflexivity.
  - reflexivity.
  - vm_compute. left. reflexivity.
  - reflexivity.
  - reflexivity.
Defined.

(** X7: [wait_sync] returns after exactly [k] sleeps when, and only when,
    its test number [k] is the first to find both sync flags set; while one
    of the flags is clear at every test it keeps waiting. *)
Theorem wait_sync_first_synced (polls : list FZClient) (k : nat) :
  wait_sync polls = Some k <->
  (exists c, nth_error polls k = Some c /\
             mods_sync c = true /\ saves_sync c = true) /\
  (forall j c, (j < k)%nat -> nth_error polls j = Some c ->
               mods_sync c = false \/ saves_sync c = false).
Proof.
  revert k. induction polls as [|c polls IH]; intros k; cbn [wait_sync].
  - split; [discriminate|]. intros [(c & Hc & _) _]. destruct k; discriminate Hc.
  - destruct (negb (mods_sync c) || negb (saves_sync c)) eqn:Hb.
    + assert (Hwait : mods_sync c = false \/ saves_sync c = false)
        by (destruct (mods_sync c), (saves_sync c); cbn in Hb; auto; discriminate).
      split.
      * destruct (wait_sync polls) as [k'|] eqn:Hw; [|discriminate].
        intros H. inversion H; subst.
        destruct (proj1 (IH k') eq_refl) as [Hex Hnone].
        split; [exact Hex|]. intros [|j] c' Hj Hc'.
        -- inversion Hc'; subst. exact Hwait.
        -- apply (Hnone j c'); [lia|exact Hc'].
      * intros [(c' & Hc' & Hm' & Hs') Hnone]. destruct k as [|k].
        -- inversion Hc'; subst. destruct Hwait; congruence.
        -- rewrite (proj2 (IH k)); [reflexivity|]. split; [exists c'; auto|].
           intros j c'' Hj. apply (Hnone (S j) c''). lia.
    + assert (Hset : mods_sync c = true /\ saves_sync c = true)
        by (destruct (mods_sync c), (saves_sync c); cbn in Hb; auto; discriminate).
      split.
      * intros H. inversion H; subst. split; [exists c; tauto|]. intros j c' Hj. lia.
      * intros [_ Hnone]. destruct k as [|k]; [reflexivity|].
        destruct (Hnone 0%nat c) as [H|H]; [lia|reflexivity| |];
          destruct Hset; congruence.
Qed.

Lemma wait_sync_first_synced_witness :
  wait_sync [init PNone; set_mods_sync true (init PNone); synced] = Some 2%nat.
Proof.
  apply (proj2 (wait_sync_first_synced
                  [init PNone; set_mods_sync true (init PNone); synced] 2)).
  split.
  - exists synced. repeat split.
  - intros [|[|j]] c Hj Hc; [| |lia]; inversion Hc; subst; cbn; auto.
Defined.

(** ** The dispatcher, branch by branch *)

(** X8: an event whose [type] is none of the ten the dispatcher acts on
    ([warn], [error], an unknown string, a value that is no string) changes
    nothing and performs no effect; neither does an [options] event whose
    [name] is not [regions], [versions] or [saves]. *)
Theorem unhandled_event_changes_nothing (env : Env) (d : gmap string pyval)
        (w : World) :
  (forall t, d !! "type" = Some t ->
             (forall s, In s handled_types -> t <> PStr s) ->
             dispatch env (PDict d) w = (Ok tt, w)) /\
  (forall name, d !! "type" = Some (PStr "options") ->
                d !! "name" = Some name ->
                name <> PStr "regions" -> name <> PStr "versions" ->
                name <> PStr "saves" ->
                dispatch env (PDict d) w = (Ok tt, w)).
Proof.
  split.
  - intros t Ht Hnot. unfold dispatch, bind at 1, subscript, of_option.
    rewrite Ht. cbn [ret].
    repeat match goal with
           | |- context [py_eq_str t ?s] =>
               rewrite (py_eq_str_false t s) by (apply Hnot; cbn; tauto)
           end.
    destruct (py_eq_str t "warn"), (py_eq_str t "error"); reflexivity.
  - intros name Ht Hn H1 H2 H3. unfold dispatch, bind, subscript, of_option.
    rewrite Ht. cbn. rewrite Hn.
    destruct name as [| | |nm| |]; cbn; try reflexivity.
    destruct (String.eqb_spec nm "regions") as [->|_]; [congruence|].
    destruct (String.eqb_spec nm "versions") as [->|_]; [congruence|].
    destruct (String.eqb_spec nm "saves") as [->|_]; [congruence|reflexivity].
Qed.

Lemma unhandled_event_changes_nothing_witness :
  dispatch demo_env (numbered "error" 5) (fresh_world synced) =
    (Ok tt, fresh_world synced).
Proof.
  apply (proj1 (unhandled_event_changes_nothing demo_env
                  {[ "type" := PStr "error"; "num" := PInt 5 ]}
                  (fresh_world synced)) (PStr "error")).
  - reflexivity.
  - intros s Hs. cbn in Hs.
    repeat (destruct Hs as [<-|Hs]; [discriminate|]). destruct Hs.
Defined.

(** X9: a [slot] event is stored whole under its slot id: afterwards the
    id looks up the event, every other id looks up what it did before, and
    nothing else of the object has changed. A missing id raises [KeyError],
    an id that is a list or an object [TypeError], both without storing
    anything. *)
Theorem slot_event_stored (env : Env) (d : gmap string pyval) (w : World) :
  d !! "type" = Some (PStr "slot") ->
  (forall id key,
      d !! "slot" = Some id -> hash_key id = Some key ->
      let out := dispatch env (PDict d) w in
      fst out = Ok tt /\
      slots (self (snd out)) !! key = Some (PDict d) /\
      (forall key', key' <> key ->
                    slots (self (snd out)) !! key' = slots (self w) !! key') /\
      snd out = {| self := set_slots (slots (self (snd out))) (self w);
                   trace := trace w |}) /\
  (d !! "slot" = None ->
   dispatch env (PDict d) w = (Exc (KeyError "slot"), w)) /\
  (forall id, d !! "slot" = Some id -> hash_key id = None ->
              dispatch env (PDict d) w = (Exc TypeError, w)).
Proof.
  intros Ht. split; [|split].
  - intros id key Hs Hh out.
    assert (Hd : out =
                 (Ok tt,
                  {| self := set_slots (<[key := PDict d]> (slots (self w))) (self w);
                     trace := trace w |})).
    { unfold out, dispatch, bind, subscript, of_option. rewrite Ht. cbn.
      rewrite Hs. unfold ret at 1. cbv beta iota. rewrite Hh. reflexivity. }
    rewrite Hd. cbn [fst snd self slots set_slots]. repeat split.
    + apply lookup_insert_eq.
    + intros key' Hk. apply lookup_insert_ne. congruence.
  - intros Hs. unfold dispatch, bind, subscript, of_option. rewrite Ht. cbn.
    rewrite Hs. reflexivity.
  - intros id Hs Hh. unfold dispatch, bind, subscript, of_option. rewrite Ht. cbn.
    rewrite Hs. unfold ret at 1. cbv beta iota. rewrite Hh. reflexivity.
Qed.

Lemma slot_event_stored_witness :
  slots (self (snd (dispatch session_env slot_event (fresh_world (init PNone)))))
    !! KStr "slot1" = Some slot_event.
Proof.
  destruct (slot_event_stored session_env
              {[ "type" := PStr "slot"; "slot" := PStr "slot1"; "num" := PInt 9 ]}
              (fresh_world (init PNone))) as [H _]; [reflexivity|].
  apply (H (PStr "slot1") (KStr "slot1")); reflexivity.
Defined.

(** ** Login *)

Lemma token_only_refl (c : FZClient) : token_only c c.
Proof. destruct c. reflexivity. Qed.

Lemma token_only_trans (a b c : FZClient) :
  token_only a b -> token_only b c -> token_only a c.
Proof.
  unfold token_only. intros Hab Hbc. rewrite Hbc at 1. rewrite Hab.
  destruct a. reflexivity.
Qed.

Lemma login_after_post (env : Env) (w : World) :
  login env w =
    let req := login_request (user_token (self w)) (visit_secret (self w)) in
    let sent := {| self := self w; trace := trace w ++ [EPost (self w) req] |} in
    match requests_post env (trace w) req with
    | inl e => (Exc e, sent)
    | inr resp =>
        if ok resp then
          match json resp with
          | None => (Exc (JSONDecodeError (text resp)), sent)
          | Some (PDict b) =>
              match b !! "userToken" with
              | Some t => (Ok tt, {| self := set_user_token t (self w);
                                     trace := trace sent |})
              | None => (Exc (KeyError "userToken"), sent)
              end
          | Some _ => (Exc TypeError, sent)
          end
        else (Exc (Exception ("Error logging in: " ++ text resp)), sent)
    end.
Proof.
  cbv zeta. unfold login, bind at 1, get_self, bind at 1, post, login_request.
  destruct (requests_post env (trace w) _) as [e|resp]; [reflexivity|].
  destruct (ok resp); [|reflexivity].
  unfold bind, of_option. destruct (json resp) as [[| | | | |b]|]; try reflexivity.
  cbn. destruct (b !! "userToken"); reflexivity.
Qed.

(** X10: [login] sends exactly one request, carrying the token and the
    visit secret the client holds, and changes nothing of the client but
    the user token. A response that is not [ok] raises an exception whose
    message ends in the response body and leaves the token as it was; so do
    a body that is not JSON ([JSONDecodeError]) and a JSON object without
    [userToken] ([KeyError]). An [ok] response whose body is an object with
    [userToken] makes that value the token. *)
Theorem login_outcomes (env : Env) (w : World) :
  let req := login_request (user_token (self w)) (visit_secret (self w)) in
  let out := login env w in
  trace (snd out) = (trace w ++ [EPost (self w) req])%list /\
  self (snd out) = set_user_token (user_token (self (snd out))) (self w) /\
  forall resp,
    requests_post env (trace w) req = inr resp ->
    (ok resp = false ->
     fst out = Exc (Exception ("Error logging in: " ++ text resp)) /\
     self (snd out) = self w) /\
    (ok resp = true -> json resp = None ->
     fst out = Exc (JSONDecodeError (text resp)) /\ self (snd out) = self w) /\
    (forall b, ok resp = true -> json resp = Some (PDict b) ->
               match b !! "userToken" with
               | Some t => fst out = Ok tt /\ user_token (self (snd out)) = t
               | None => fst out = Exc (KeyError "userToken") /\
                         self (snd out) = self w
               end).
Proof.
  intros req out. subst out. rewrite login_after_post. cbv zeta. fold req.
  destruct (requests_post env (trace w) req) as [e|resp].
  { cbn [fst snd self trace]. split; [reflexivity|]. split; [apply token_only_refl|].
    intros r Hr. discriminate Hr. }
  destruct (ok resp) eqn:Hok.
  2:{ cbn [fst snd self trace]. split; [reflexivity|]. split; [apply token_only_refl|].
      intros r Hr. injection Hr as <-. rewrite Hok.
      repeat split; intros; congruence. }
  destruct (json resp) as [body|] eqn:Hj.
  2:{ cbn [fst snd self trace]. split; [reflexivity|]. split; [apply token_only_refl|].
      intros r Hr. injection Hr as <-. rewrite Hj.
      repeat split; intros; congruence. }
  destruct body as [| | | | |b];
    try (cbn [fst snd self trace]; split; [reflexivity|];
         split; [apply token_only_refl|];
         intros r Hr; injection Hr as <-; rewrite Hj;
         repeat split; intros; congruence).
  destruct (b !! "userToken") as [t|] eqn:Hb; cbn [fst snd self trace].
  - split; [reflexivity|]. split; [reflexivity|].
    intros r Hr. injection Hr as <-. rewrite Hj.
    split; [intros; congruence|]. split; [intros; congruence|].
    intros b0 _ Hb0. injection Hb0 as <-. rewrite Hb. split; reflexivity.
  - split; [reflexivity|]. split; [apply token_only_refl|].
    intros r Hr. injection Hr as <-. rewrite Hj.
    split; [intros; congruence|]. split; [intros; congruence|].
    intros b0 _ Hb0. injection Hb0 as <-. rewrite Hb. split; reflexivity.
Qed.

Lemma login_outcomes_witness :
  fst (login session_env (fresh_world (init PNone))) = Ok tt /\
  user_token (self (snd (login session_env (fresh_world (init PNone))))) = PStr "tok".
Proof.
  destruct (login_outcomes session_env (fresh_world (init PNone))) as (_ & _ & H).
  destruct (H token_reply eq_refl) as (_ & _ & Hb).
  exact (Hb {[ "userToken" := PStr "tok" ]} eq_refl eq_refl).
Defined.

(** X11: a [visit] event stores its secret and logs in with it: the
    request carries that secret and the token the client holds, and the
    secret stays stored whatever the login does. When the server refuses
    the login the receive loop ends there, with the login error; the frames
    after the [visit] are not received. A [visit] event without [secret]
    raises [KeyError] and sends nothing. *)
Theorem visit_logs_in_with_secret (env : Env) (d : gmap string pyval)
        (w : World) :
  d !! "type" = Some (PStr "visit") ->
  (forall secret,
      d !! "secret" = Some secret ->
      let req := login_request (user_token (self w)) secret in
      let out := dispatch env (PDict d) w in
      trace (snd out) =
        (trace w ++ [EPost (set_visit_secret secret (self w)) req])%list /\
      visit_secret (self (snd out)) = secret /\
      forall resp message rest w0,
        requests_post env (trace w) req = inr resp ->
        ok resp = false ->
        json_loads env message = Some (PDict d) ->
        sequencer (PDict d) (emit (ERecv message) w0) = (Ok true, w) ->
        connect_loop env (message :: rest) w0 =
          ([], Raised (Exception ("Error logging in: " ++ text resp)),
           {| self := set_visit_secret secret (self w);
              trace := trace w ++ [EPost (set_visit_secret secret (self w)) req] |})) /\
  (d !! "secret" = None ->
   dispatch env (PDict d) w = (Exc (KeyError "secret"), w)).
Proof.
  intros Ht. split.
  - intros secret Hs req out.
    assert (Hd : out = login env {| self := set_visit_secret secret (self w);
                                    trace := trace w |}).
    { unfold out, dispatch, bind at 1, subscript, of_option. rewrite Ht. cbn [ret].
      cbn [py_eq_str String.eqb Ascii.eqb Bool.eqb]. cbv iota.
      unfold bind at 1. rewrite Hs. reflexivity. }
    rewrite login_after_post in Hd. cbv zeta in Hd. cbn [self trace] in Hd.
    change (user_token (set_visit_secret secret (self w)))
      with (user_token (self w)) in Hd.
    change (visit_secret (set_visit_secret secret (self w))) with secret in Hd.
    fold req in Hd.
    split; [|split].
    + rewrite Hd. destruct (requests_post env (trace w) req) as [e|resp];
        [reflexivity|].
      destruct (ok resp); [|reflexivity].
      destruct (json resp) as [[| | | | |b]|]; try reflexivity.
      destruct (b !! "userToken"); reflexivity.
    + rewrite Hd. destruct (requests_post env (trace w) req) as [e|resp];
        [reflexivity|].
      destruct (ok resp); [|reflexivity].
      destruct (json resp) as [[| | | | |b]|]; try reflexivity.
      destruct (b !! "userToken"); reflexivity.
    + intros resp message rest w0 Hpost Hok Hdec Hseq. cbn [connect_loop].
      rewrite (connect_body_accepted env message (PDict d) _ w Hdec Hseq).
      unfold bind at 1. fold out. rewrite Hd, Hpost, Hok. reflexivity.
  - intros Hs. unfold dispatch, bind at 1, subscript, of_option. rewrite Ht. cbn [ret].
    cbn [py_eq_str String.eqb Ascii.eqb Bool.eqb]. cbv iota.
    unfold bind at 1. rewrite Hs. reflexivity.
Qed.

Lemma visit_logs_in_with_secret_witness :
  visit_secret (self (snd (dispatch session_env visit_event (fresh_world (init PNone)))))
    = PStr "s3cr3t".
Proof.
  destruct (visit_logs_in_with_secret session_env
              {[ "type" := PStr "visit"; "secret" := PStr "s3cr3t" ]}
              (fresh_world (init PNone))) as [H _]; [reflexivity|].
  apply (H (PStr "s3cr3t")). reflexivity.
Defined.

(** ** Listeners *)

Lemma for_each_invoke_quiet (env : Env) (arg : pyval) (l : list callable) :
  forall w,
    (forall tr f, In f l -> call env tr f arg = None) ->
    for_each l (fun f => invoke env f arg) w =
      (Ok tt, {| self := self w; trace := trace w ++ calls arg l |}).
Proof.
  induction l as [|f l IH]; intros w Hq; cbn [for_each calls map].
  - unfold ret. rewrite app_nil_r. destruct w. reflexivity.
  - unfold bind, invoke. rewrite (Hq (trace w) f) by (left; reflexivity).
    rewrite IH by (intros tr g Hg; apply Hq; right; exact Hg).
    cbn [emit self trace]. rewrite <- app_assoc. reflexivity.
Qed.

Lemma for_each_invoke_raises (env : Env) (arg : pyval) (l1 l2 : list callable)
      (f : callable) (e : exn) (w : World) :
  (forall tr g, In g l1 -> call env tr g arg = None) ->
  call env (trace w ++ calls arg l1) f arg = Some e ->
  for_each (l1 ++ f :: l2) (fun g => invoke env g arg) w =
    (Exc e, {| self := self w; trace := trace w ++ calls arg l1 ++ [ECall f arg] |}).
Proof.
  revert w. induction l1 as [|g l1 IH]; intros w Hq He.
  - cbn [app for_each calls map] in *. rewrite app_nil_r in He.
    unfold bind, invoke. rewrite He. reflexivity.
  - cbn [app for_each calls map] in *. unfold bind at 1, invoke at 1.
    rewrite (Hq (trace w) g) by (left; reflexivity).
    rewrite IH.
    + cbn [emit self trace]. rewrite <- app_assoc. reflexivity.
    + intros tr h Hh. apply Hq. right. exact Hh.
    + cbn [emit self trace]. rewrite <- app_assoc. exact He.
Qed.

(** X12: every decoded event reaches the message listeners in the order
    they were registered, each called once with the event. A listener that
    raises stops the round: its exception leaves [on_new_message], and the
    listeners registered after it are not called. *)
Theorem message_listeners_in_order (env : Env) (data : pyval) (w : World) :
  ((forall tr f, In f (message_listeners (self w)) -> call env tr f data = None) ->
   on_new_message env data w =
     (Ok tt, {| self := self w;
                trace := trace w ++ calls data (message_listeners (self w)) |})) /\
  (forall l1 f l2 e,
      message_listeners (self w) = (l1 ++ f :: l2)%list ->
      (forall tr g, In g l1 -> call env tr g data = None) ->
      call env (trace w ++ calls data l1) f data = Some e ->
      on_new_message env data w =
        (Exc e, {| self := self w;
                   trace := trace w ++ calls data l1 ++ [ECall f data] |})).
Proof.
  split.
  - intros Hq. unfold on_new_message, bind, get_self.
    apply for_each_invoke_quiet. exact Hq.
  - intros l1 f l2 e Hl Hq He. unfold on_new_message, bind, get_self. rewrite Hl.
    apply for_each_invoke_raises; assumption.
Qed.

Lemma message_listeners_in_order_witness :
  on_new_message demo_env log_event
    (fresh_world (add_message_listener 4%nat listening)) =
    (Ok tt, {| self := add_message_listener 4%nat listening;
               trace := [ECall 3%nat log_event; ECall 4%nat log_event] |}).
Proof.
  apply (proj1 (message_listeners_in_order demo_env log_event
                  (fresh_world (add_message_listener 4%nat listening)))).
  reflexivity.
Defined.

(** X13: a [log] event that passed the sequence check hands its [line]
    ([None] when it has none) to the log listeners, in order, and only then
    the whole event to the message listeners; the object is as the check
    left it. When a log listener raises, no message listener hears of the
    event. *)
Theorem log_event_notifies (env : Env) (d : gmap string pyval) (w : World) :
  d !! "type" = Some (PStr "log") ->
  let turn := (dispatch env (PDict d) >> on_new_message env (PDict d) >>
               ret (Handled (PDict d))) w in
  let line := dict_get d "line" in
  ((forall tr f arg, call env tr f arg = None) ->
   turn = (Ok (Handled (PDict d)),
           {| self := self w;
              trace := trace w ++ calls line (logs_listeners (self w)) ++
                       calls (PDict d) (message_listeners (self w)) |})) /\
  (forall l1 f l2 e,
      logs_listeners (self w) = (l1 ++ f :: l2)%list ->
      (forall tr g, In g l1 -> call env tr g line = None) ->
      call env (trace w ++ calls line l1) f line = Some e ->
      turn = (Exc e, {| self := self w;
                        trace := trace w ++ calls line l1 ++ [ECall f line] |})).
Proof.
  intros Ht turn line.
  assert (Hd : dispatch env (PDict d) w = on_new_log env line w).
  { unfold dispatch, bind at 1, subscript, of_option. rewrite Ht. reflexivity. }
  split.
  - intros Hq. unfold turn, bind at 1. rewrite Hd.
    unfold on_new_log, bind at 1, get_self.
    rewrite for_each_invoke_quiet by (intros; apply Hq).
    unfold bind at 1.
    unfold on_new_message, bind at 1, get_self.
    rewrite for_each_invoke_quiet by (intros; apply Hq).
    cbn [self trace]. rewrite <- app_assoc. reflexivity.
  - intros l1 f l2 e Hl Hq He. unfold turn, bind at 1. rewrite Hd.
    unfold on_new_log, bind at 1, get_self. rewrite Hl.
    rewrite (for_each_invoke_raises env line l1 l2 f e w Hq He). reflexivity.
Qed.

Lemma log_event_notifies_witness :
  (dispatch faulty_env log_event >> on_new_message faulty_env log_event >>
   ret (Handled log_event)) (fresh_world listening) =
    (Exc (Exception "listener"),
     {| self := listening;
        trace := [ECall 1%nat (PStr "hello"); ECall 2%nat (PStr "hello")] |}).
Proof.
  destruct (log_event_notifies faulty_env
              {[ "type" := PStr "log"; "line" := PStr "hello"; "num" := PInt 3 ]}
              (fresh_world listening)) as [_ H]; [reflexivity|].
  apply (H [1%nat] 2%nat [] (Exception "listener")).
  - reflexivity.
  - intros tr g [<-|[]]. reflexivity.
  - reflexivity.
Defined.

(** X14: removing a listener undoes registering it only when it was not
    registered before: then the listeners are as they were. Otherwise
    [remove] takes the earlier registration away and the listener stays,
    now last in the order; a listener that is not registered cannot be
    removed ([ValueError]). *)
Theorem remove_listener_after_add (f : callable) (c : FZClient) :
  (~ In f (message_listeners c) ->
   remove_message_listener f (add_message_listener f c) = Some c /\
   remove_message_listener f c = None) /\
  (forall l', list_remove f (message_listeners c) = Some l' ->
              remove_message_listener f (add_message_listener f c) =
                Some (set_message_listeners (l' ++ [f]) c)).
Proof.
  assert (Happ : forall l l', list_remove f l = Some l' ->
                              list_remove f (l ++ [f])%list = Some (l' ++ [f])%list).
  { induction l as [|g l IH]; intros l' H; cbn in *; [discriminate|].
    destruct (Nat.eqb g f); [inversion H; reflexivity|].
    destruct (list_remove f l) as [r|]; [|discriminate].
    inversion H; subst. rewrite (IH r eq_refl). reflexivity. }
  assert (Hfresh : forall l, ~ In f l ->
                             list_remove f l = None /\
                             list_remove f (l ++ [f])%list = Some l).
  { induction l as [|g l IH]; intros Hn; cbn.
    - rewrite Nat.eqb_refl. split; reflexivity.
    - destruct (Nat.eqb_spec g f) as [->|_]; [exfalso; apply Hn; left; reflexivity|].
      destruct IH as [-> ->]; [intros H; apply Hn; right; exact H|].
      split; reflexivity. }
  split.
  - intros Hn. destruct (Hfresh _ Hn) as [H1 H2].
    unfold remove_message_listener, add_message_listener. cbn [message_listeners set_message_listeners].
    rewrite H1, H2. split; [|reflexivity]. destruct c. reflexivity.
  - intros l' Hl. unfold remove_message_listener, add_message_listener.
    cbn [message_listeners set_message_listeners]. rewrite (Happ _ _ Hl). reflexivity.
Qed.

Lemma remove_listener_after_add_witness :
  remove_message_listener 3%nat (add_message_listener 3%nat listening) =
    Some (set_message_listeners [3%nat] listening).
Proof.
  apply (proj2 (remove_listener_after_add 3%nat listening) []). reflexivity.
Defined.

(** ** The operations on mods and saves *)

Lemma toggle_mod_settles (env : Env) (mod_id : Z) (enabled : bool) (w : World) :
  let w0 := {| self := set_mods_sync false (self w); trace := trace w |} in
  let req := toggle_mod_request (visit_secret (self w)) mod_id enabled in
  toggle_mod env mod_id enabled w =
    settle (requests_post env (trace w) req) (fun r => negb (ok r))
      (set_mods_sync true) "Error in toggling mod: " req w0.
Proof.
  cbv zeta. unfold toggle_mod, settle, bind, modify, get_self, post, toggle_mod_request.
  cbn [self trace emit visit_secret set_mods_sync].
  destruct (requests_post env (trace w) _) as [e|resp]; [reflexivity|].
  destruct (ok resp); reflexivity.
Qed.

Lemma delete_mod_settles (env : Env) (mod_id : Z) (w : World) :
  let w0 := {| self := set_mods_sync false (self w); trace := trace w |} in
  let req := delete_mod_request (visit_secret (self w)) mod_id in
  delete_mod env mod_id w =
    settle (requests_post env (trace w) req) (fun r => negb (ok r))
      (set_mods_sync true) "Error in deleting mod: " req w0.
Proof.
  cbv zeta. unfold delete_mod, settle, bind, modify, get_self, post, delete_mod_request.
  cbn [self trace emit visit_secret set_mods_sync].
  destruct (requests_post env (trace w) _) as [e|resp]; [reflexivity|].
  destruct (ok resp); reflexivity.
Qed.

Lemma delete_save_slot_settles (env : Env) (slot : string) (w : World) :
  let w0 := {| self := set_saves_sync false (self w); trace := trace w |} in
  let req := delete_save_request (visit_secret (self w)) slot in
  delete_save_slot env slot w =
    settle (requests_post env (trace w) req)
      (fun r => negb (status_code r =? 200))
      (set_saves_sync true) "Error deleting save: " req w0.
Proof.
  cbv zeta.
  unfold delete_save_slot, settle, bind, modify, get_self, post, delete_save_request.
  cbn [self trace emit visit_secret set_saves_sync].
  destruct (requests_post env (trace w) _) as [e|resp]; [reflexivity|].
  destruct (status_code resp =? 200); reflexivity.
Qed.

Lemma upload_mod_settles (env : Env) (m : Mod.t) (cb : option callable) (w : World) :
  Mod.size m <= 268435456 ->
  builtin_open env (trace w) (Mod.filePath m) "rb" = None ->
  let opened := (trace w ++ [EOpen (Mod.filePath m) "rb"])%list in
  let w0 := {| self := set_mods_sync false (self w); trace := opened |} in
  let req := upload_mod_request (visit_secret (self w)) m cb in
  upload_mod env m cb w =
    match multipart_encoder env opened (upload_mod_fields (visit_secret (self w)) m) with
    | Some e => (Exc e, {| self := self w; trace := opened |})
    | None =>
        settle (requests_post env opened req) (fun r => negb (ok r))
          (set_mods_sync true) "Error uploading mod: " req w0
    end.
Proof.
  intros Hsize Hopen. cbv zeta. unfold upload_mod, bind at 1, open_. rewrite Hopen.
  destruct (Z.ltb_spec 268435456 (Mod.size m)); [lia|].
  unfold bind at 1, get_self. unfold bind at 1, build_encoder.
  cbn [self trace emit]. fold (upload_mod_fields (visit_secret (self w)) m).
  destruct (multipart_encoder env _ _) as [e|]; [reflexivity|].
  unfold settle, bind, modify, post, upload_mod_request.
  cbn [self trace emit visit_secret set_mods_sync].
  destruct (requests_post env _ _) as [e|resp]; [reflexivity|].
  destruct (ok resp); reflexivity.
Qed.

Lemma upload_save_settles (env : Env) (save : Save.t) (cb : option callable)
      (w : World) :
  Save.size save <= 100663296 ->
  builtin_open env (trace w) (Save.filePath save) "rb" = None ->
  let opened := (trace w ++ [EOpen (Save.filePath save) "rb"])%list in
  let w0 := {| self := set_saves_sync false (self w); trace := opened |} in
  let req := upload_save_request (visit_secret (self w)) save cb in
  upload_save env save cb w =
    match multipart_encoder env opened
            (upload_save_fields (visit_secret (self w)) save) with
    | Some e => (Exc e, {| self := self w; trace := opened |})
    | None =>
        settle (requests_post env opened req) (fun r => negb (ok r))
          (set_saves_sync true) "Error uploading save: " req w0
    end.
Proof.
  intros Hsize Hopen. cbv zeta. unfold upload_save, bind at 1, open_. rewrite Hopen.
  destruct (Z.ltb_spec 100663296 (Save.size save)); [lia|].
  unfold bind at 1, get_self. unfold bind at 1, build_encoder.
  cbn [self trace emit]. fold (upload_save_fields (visit_secret (self w)) save).
  destruct (multipart_encoder env _ _) as [e|]; [reflexivity|].
  unfold settle, bind, modify, post, upload_save_request.
  cbn [self trace emit visit_secret set_saves_sync].
  destruct (requests_post env _ _) as [e|resp]; [reflexivity|].
  destruct (ok resp); reflexivity.
Qed.

(** What [settle] leaves behind. *)
Lemma settle_outcome (answer : exn + response) (failed : response -> bool)
      (restore : FZClient -> FZClient) (what : string) (req : request)
      (w0 : World) :
  let out := settle answer failed restore what req w0 in
  trace (snd out) = (trace w0 ++ [EPost (self w0) req])%list /\
  (forall e, answer = inl e -> fst out = Exc e /\ self (snd out) = self w0) /\
  (forall resp, answer = inr resp -> failed resp = true ->
                fst out = Exc (Exception (what ++ text resp)) /\
                self (snd out) = restore (self w0)) /\
  (forall resp, answer = inr resp -> failed resp = false ->
                fst out = Ok tt /\ self (snd out) = self w0).
Proof.
  cbv zeta. unfold settle. destruct answer as [e|resp].
  - cbn. repeat split; intros; congruence.
  - destruct (failed resp) eqn:Hf; cbn; repeat split; intros; congruence.
Qed.

(** X15: [delete_mod] sends its request with [mods_sync] already false; a
    response that is not [ok] sets it to true again and raises an exception
    whose message ends in the response body; an [ok] response returns with
    it false. [upload_mod], for a mod of at most 268435456 bytes (the limit
    included) whose file opens, first builds the multipart body: when the
    encoder raises, that exception leaves [upload_mod] with [mods_sync]
    untouched and nothing sent; when it does not, the upload goes on as
    [delete_mod] does, its request stating the size in decimal. *)
Theorem mod_operations_sync_flag (env : Env) (w : World) :
  let c0 := set_mods_sync false (self w) in
  (forall mod_id,
      let req := delete_mod_request (visit_secret (self w)) mod_id in
      let out := delete_mod env mod_id w in
      trace (snd out) = (trace w ++ [EPost c0 req])%list /\
      forall resp,
        requests_post env (trace w) req = inr resp ->
        (ok resp = false ->
         fst out = Exc (Exception ("Error in deleting mod: " ++ text resp)) /\
         self (snd out) = set_mods_sync true c0) /\
        (ok resp = true -> fst out = Ok tt /\ self (snd out) = c0)) /\
  (forall m cb,
      Mod.size m <= 268435456 ->
      builtin_open env (trace w) (Mod.filePath m) "rb" = None ->
      let fields := upload_mod_fields (visit_secret (self w)) m in
      let req := upload_mod_request (visit_secret (self w)) m cb in
      let opened := (trace w ++ [EOpen (Mod.filePath m) "rb"])%list in
      let out := upload_mod env m cb w in
      (forall e, multipart_encoder env opened fields = Some e ->
                 out = (Exc e, {| self := self w; trace := opened |})) /\
      (multipart_encoder env opened fields = None ->
       trace (snd out) = (opened ++ [EPost c0 req])%list /\
       forall resp,
         requests_post env opened req = inr resp ->
         (ok resp = false ->
          fst out = Exc (Exception ("Error uploading mod: " ++ text resp)) /\
          self (snd out) = set_mods_sync true c0) /\
         (ok resp = true -> fst out = Ok tt /\ self (snd out) = c0))).
Proof.
  intros c0. split.
  - intros mod_id req out. subst out. rewrite delete_mod_settles. cbv zeta.
    fold req c0.
    destruct (settle_outcome (requests_post env (trace w) req) (fun r => negb (ok r))
                (set_mods_sync true) "Error in deleting mod: " req
                {| self := c0; trace := trace w |}) as (Htr & _ & Hfail & Hok).
    split; [exact Htr|]. intros resp Hr. split; intros Hs.
    + apply (Hfail resp Hr). rewrite Hs. reflexivity.
    + apply (Hok resp Hr). rewrite Hs. reflexivity.
  - intros m cb Hsize Hopen fields req opened out. subst out.
    rewrite (upload_mod_settles env m cb w Hsize Hopen). cbv zeta.
    fold fields req c0 opened. split.
    + intros e He. rewrite He. reflexivity.
    + intros Henc. rewrite Henc.
      destruct (settle_outcome (requests_post env opened req) (fun r => negb (ok r))
                  (set_mods_sync true) "Error uploading mod: " req
                  {| self := c0; trace := opened |}) as (Htr & _ & Hfail & Hok).
      split; [exact Htr|]. intros resp Hr. split; intros Hs.
      * apply (Hfail resp Hr). rewrite Hs. reflexivity.
      * apply (Hok resp Hr). rewrite Hs. reflexivity.
Qed.

Lemma mod_operations_sync_flag_witness :
  (fst (upload_mod demo_env full_mod None (fresh_world synced)) = Ok tt /\
   trace (snd (upload_mod demo_env full_mod None (fresh_world synced))) =
     [EOpen "/mods/full.zip" "rb";
      EPost (set_mods_sync false synced)
        {| url := "https://factorio.zone/api/mod/upload";
           body := Multipart
                     [("visitSecret", Field PNone);
                      ("file", FileField "full.zip" "/mods/full.zip"
                                 "application/x-zip-compressed");
                      ("size", Field (PStr "268435456"))] None;
           stream := false |}]) /\
  upload_mod demo_env full_mod None (fresh_world numeric_secret) =
    (Exc AttributeError,
     {| self := numeric_secret; trace := [EOpen "/mods/full.zip" "rb"] |}).
Proof.
  split.
  - destruct (proj2 (mod_operations_sync_flag demo_env (fresh_world synced))
                full_mod None) as [_ Hsent].
    + vm_compute. discriminate.
    + reflexivity.
    + destruct (Hsent eq_refl) as [Htr Hresp]. split.
      * apply (Hresp (reply 200 "")); reflexivity.
      * rewrite Htr. reflexivity.
  - destruct (proj2 (mod_operations_sync_flag demo_env (fresh_world numeric_secret))
                full_mod None) as [Hraise _].
    + vm_compute. discriminate.
    + reflexivity.
    + apply (Hraise AttributeError). reflexivity.
Defined.

(** X16: [delete_save_slot] clears [saves_sync] before its request, sets
    it again and raises an exception ending in the response body when the
    status is anything but 200, and leaves it clear on 200. [upload_save],
    for a save of at most 100663296 bytes (the limit included) whose file
    opens, first builds the multipart body: when the encoder raises, that
    exception leaves [upload_save] with [saves_sync] untouched and nothing
    sent; when it does not, the request leaves with [saves_sync] false, a
    response that is not [ok] sets it again and raises, an [ok] one leaves
    it clear. *)
Theorem save_operations_sync_flag (env : Env) (w : World) :
  let c0 := set_saves_sync false (self w) in
  (forall slot,
      let req := delete_save_request (visit_secret (self w)) slot in
      let out := delete_save_slot env slot w in
      trace (snd out) = (trace w ++ [EPost c0 req])%list /\
      forall resp,
        requests_post env (trace w) req = inr resp ->
        (status_code resp <> 200 ->
         fst out = Exc (Exception ("Error deleting save: " ++ text resp)) /\
         self (snd out) = set_saves_sync true c0) /\
        (status_code resp = 200 -> fst out = Ok tt /\ self (snd out) = c0)) /\
  (forall save cb,
      Save.size save <= 100663296 ->
      builtin_open env (trace w) (Save.filePath save) "rb" = None ->
      let fields := upload_save_fields (visit_secret (self w)) save in
      let req := upload_save_request (visit_secret (self w)) save cb in
      let opened := (trace w ++ [EOpen (Save.filePath save) "rb"])%list in
      let out := upload_save env save cb w in
      (forall e, multipart_encoder env opened fields = Some e ->
                 out = (Exc e, {| self := self w; trace := opened |})) /\
      (multipart_encoder env opened fields = None ->
       trace (snd out) = (opened ++ [EPost c0 req])%list /\
       forall resp,
         requests_post env opened req = inr resp ->
         (ok resp = false ->
          fst out = Exc (Exception ("Error uploading save: " ++ text resp)) /\
          self (snd out) = set_saves_sync true c0) /\
         (ok resp = true -> fst out = Ok tt /\ self (snd out) = c0))).
Proof.
  intros c0. split.
  - intros slot req out. subst out. rewrite delete_save_slot_settles. cbv zeta.
    fold req c0.
    destruct (settle_outcome (requests_post env (trace w) req)
                (fun r => negb (status_code r =? 200))
                (set_saves_sync true) "Error deleting save: " req
                {| self := c0; trace := trace w |}) as (Htr & _ & Hfail & Hok).
    split; [exact Htr|]. intros resp Hr. split; intros Hs.
    + apply (Hfail resp Hr). destruct (Z.eqb_spec (status_code resp) 200);
        [contradiction|reflexivity].
    + apply (Hok resp Hr). rewrite Hs. reflexivity.
  - intros save cb Hsize Hopen fields req opened out. subst out.
    rewrite (upload_save_settles env save cb w Hsize Hopen). cbv zeta.
    fold fields req c0 opened. split.
    + intros e He. rewrite He. reflexivity.
    + intros Henc. rewrite Henc.
      destruct (settle_outcome (requests_post env opened req) (fun r => negb (ok r))
                  (set_saves_sync true) "Error uploading save: " req
                  {| self := c0; trace := opened |}) as (Htr & _ & Hfail & Hok).
      split; [exact Htr|]. intros resp Hr. split; intros Hs.
      * apply (Hfail resp Hr). rewrite Hs. reflexivity.
      * apply (Hok resp Hr). rewrite Hs. reflexivity.
Qed.

Lemma save_operations_sync_flag_witness :
  (fst (upload_save refusing_env full_save None (fresh_world synced)) =
     Exc (Exception "Error uploading save: no") /\
   saves_sync (self (snd (upload_save refusing_env full_save None
                            (fresh_world synced)))) = true) /\
  upload_save refusing_env full_save None (fresh_world numeric_secret) =
    (Exc AttributeError,
     {| self := numeric_secret; trace := [EOpen "/saves/full.zip" "rb"] |}).
Proof.
  split.
  - destruct (proj2 (save_operations_sync_flag refusing_env (fresh_world synced))
                full_save None) as [_ Hsent].
    + vm_compute. discriminate.
    + reflexivity.
    + destruct (Hsent eq_refl) as [_ Hresp].
      destruct (Hresp (reply 500 "no") eq_refl) as [Hfail _].
      destruct (Hfail eq_refl) as [H1 H2]. split; [exact H1|].
      rewrite H2. reflexivity.
  - destruct (proj2 (save_operations_sync_flag refusing_env
                       (fresh_world numeric_secret)) full_save None) as [Hraise _].
    + vm_compute. discriminate.
    + reflexivity.
    + apply (Hraise AttributeError). reflexivity.
Defined.

(** X17: the two deletions read the same answer differently. To a
    response whose status is not 200 but is outside 400..599 (a 204, say),
    [delete_mod] returns normally and leaves [mods_sync] clear, while
    [delete_save_slot] raises and sets [saves_sync] again. *)
Theorem deletions_disagree_on_status (env : Env) (mod_id : Z) (slot : string)
        (w : World) (resp : response) :
  status_code resp <> 200 ->
  ok resp = true ->
  requests_post env (trace w) (delete_mod_request (visit_secret (self w)) mod_id)
    = inr resp ->
  requests_post env (trace w) (delete_save_request (visit_secret (self w)) slot)
    = inr resp ->
  (fst (delete_mod env mod_id w) = Ok tt /\
   mods_sync (self (snd (delete_mod env mod_id w))) = false) /\
  (fst (delete_save_slot env slot w) =
     Exc (Exception ("Error deleting save: " ++ text resp)) /\
   saves_sync (self (snd (delete_save_slot env slot w))) = true).
Proof.
  intros Hs Hok Hm Hd. split.
  - rewrite delete_mod_settles. cbv zeta. unfold settle. rewrite Hm, Hok.
    split; reflexivity.
  - rewrite delete_save_slot_settles. cbv zeta. unfold settle. rewrite Hd.
    destruct (Z.eqb_spec (status_code resp) 200); [contradiction|].
    split; reflexivity.
Qed.

Lemma deletions_disagree_on_status_witness :
  fst (delete_mod no_content_env 7 (fresh_world synced)) = Ok tt /\
  fst (delete_save_slot no_content_env "slot1" (fresh_world synced)) =
    Exc (Exception "Error deleting save: ").
Proof.
  destruct (deletions_disagree_on_status no_content_env 7 "slot1"
              (fresh_world synced) (reply 204 "")) as [[H1 _] [H2 _]];
    try reflexivity.
  - vm_compute. discriminate.
  - split; [exact H1|exact H2].
Defined.

(** X18: when the request itself fails and there is no response (the
    library raises), the operations do not set the flag they cleared:
    [toggle_mod], [delete_mod] and [upload_mod] end with [mods_sync] false,
    [delete_save_slot] and [upload_save] with [saves_sync] false, and the
    library's exception leaves the operation. For the uploads this is when
    the operation got as far as its request: the size within the limit,
    the file opened, the multipart body built. *)
Theorem transport_error_leaves_flag_clear (env : Env) (w : World) (e : exn) :
  (forall mod_id enabled,
      requests_post env (trace w)
        (toggle_mod_request (visit_secret (self w)) mod_id enabled) = inl e ->
      fst (toggle_mod env mod_id enabled w) = Exc e /\
      mods_sync (self (snd (toggle_mod env mod_id enabled w))) = false) /\
  (forall mod_id,
      requests_post env (trace w)
        (delete_mod_request (visit_secret (self w)) mod_id) = inl e ->
      fst (delete_mod env mod_id w) = Exc e /\
      mods_sync (self (snd (delete_mod env mod_id w))) = false) /\
  (forall slot,
      requests_post env (trace w)
        (delete_save_request (visit_secret (self w)) slot) = inl e ->
      fst (delete_save_slot env slot w) = Exc e /\
      saves_sync (self (snd (delete_save_slot env slot w))) = false) /\
  (forall m cb,
      let opened := (trace w ++ [EOpen (Mod.filePath m) "rb"])%list in
      Mod.size m <= 268435456 ->
      builtin_open env (trace w) (Mod.filePath m) "rb" = None ->
      multipart_encoder env opened (upload_mod_fields (visit_secret (self w)) m)
        = None ->
      requests_post env opened (upload_mod_request (visit_secret (self w)) m cb)
        = inl e ->
      fst (upload_mod env m cb w) = Exc e /\
      mods_sync (self (snd (upload_mod env m cb w))) = false) /\
  (forall save cb,
      let opened := (trace w ++ [EOpen (Save.filePath save) "rb"])%list in
      Save.size save <= 100663296 ->
      builtin_open env (trace w) (Save.filePath save) "rb" = None ->
      multipart_encoder env opened (upload_save_fields (visit_secret (self w)) save)
        = None ->
      requests_post env opened (upload_save_request (visit_secret (self w)) save cb)
        = inl e ->
      fst (upload_save env save cb w) = Exc e /\
      saves_sync (self (snd (upload_save env save cb w))) = false).
Proof.
  split; [|split; [|split; [|split]]].
  - intros mod_id enabled H. rewrite toggle_mod_settles. cbv zeta. unfold settle.
    rewrite H. split; reflexivity.
  - intros mod_id H. rewrite delete_mod_settles. cbv zeta. unfold settle.
    rewrite H. split; reflexivity.
  - intros slot H. rewrite delete_save_slot_settles. cbv zeta. unfold settle.
    rewrite H. split; reflexivity.
  - intros m cb opened Hsize Hopen Henc H.
    rewrite (upload_mod_settles env m cb w Hsize Hopen). cbv zeta. fold opened.
    rewrite Henc. unfold settle. rewrite H. split; reflexivity.
  - intros save cb opened Hsize Hopen Henc H.
    rewrite (upload_save_settles env save cb w Hsize Hopen). cbv zeta. fold opened.
    rewrite Henc. unfold settle. rewrite H. split; reflexivity.
Qed.

Lemma transport_error_leaves_flag_clear_witness :
  (fst (toggle_mod faulty_env 7 false (fresh_world synced)) = Exc ConnectionError /\
   mods_sync (self (snd (toggle_mod faulty_env 7 false (fresh_world synced)))) = false) /\
  (fst (upload_save faulty_env full_save None (fresh_world synced)) =
     Exc ConnectionError /\
   saves_sync (self (snd (upload_save faulty_env full_save None
                            (fresh_world synced)))) = false).
Proof.
  destruct (transport_error_leaves_flag_clear faulty_env (fresh_world synced)
              ConnectionError) as (Ht & _ & _ & _ & Hs).
  split.
  - apply (Ht 7 false). reflexivity.
  - apply (Hs full_save None); try reflexivity; vm_compute; discriminate.
Defined.

(** ** Downloading a save *)







(** ** The instance operations *)

Lemma start_instance_after_post (env : Env) (region version save : pyval)
      (ipv6 : bool) (w : World) :
  start_instance env region version save ipv6 w =
    let req := start_request (visit_secret (self w)) region version save ipv6 in
    let sent := {| self := self w; trace := trace w ++ [EPost (self w) req] |} in
    match requests_post env (trace w) req with
    | inl e => (Exc e, sent)
    | inr resp =>
        if negb (status_code resp =? 200)
        then (Exc (Exception ("Error starting instance: " ++ text resp)), sent)
        else match json resp with
             | None => (Exc (JSONDecodeError (text resp)), sent)
             | Some (PDict b) =>
                 match b !! "launchId" with
                 | Some launch => (Ok tt, {| self := set_launch_id launch (self w);
                                             trace := trace sent |})
                 | None => (Exc (KeyError "launchId"), sent)
                 end
             | Some _ => (Exc TypeError, sent)
             end
    end.
Proof.
  cbv zeta. unfold start_instance, bind at 1, get_self, bind at 1, post, start_request.
  destruct (requests_post env (trace w) _) as [e|resp]; [reflexivity|].
  destruct (negb (status_code resp =? 200)); [reflexivity|].
  unfold bind, of_option. destruct (json resp) as [[| | | | |b]|]; try reflexivity.
  cbn. destruct (b !! "launchId"); reflexivity.
Qed.

Lemma send_command_after_post (env : Env) (command : pyval) (w : World) :
  send_command env command w =
    let req := console_request (visit_secret (self w)) (launch_id (self w)) command in
    let sent := {| self := self w; trace := trace w ++ [EPost (self w) req] |} in
    match requests_post env (trace w) req with
    | inl e => (Exc e, sent)
    | inr resp =>
        if negb (status_code resp =? 200)
        then (Exc (Exception ("Error sending console command: " ++ text resp)), sent)
        else (Ok tt, sent)
    end.
Proof.
  cbv zeta. unfold send_command, bind, get_self, post, console_request.
  destruct (requests_post env (trace w) _) as [e|resp]; [reflexivity|].
  destruct (negb (status_code resp =? 200)); reflexivity.
Qed.

Lemma stop_instance_after_post (env : Env) (w : World) :
  stop_instance env w =
    let req := stop_request (visit_secret (self w)) (launch_id (self w)) in
    let sent := {| self := self w; trace := trace w ++ [EPost (self w) req] |} in
    match requests_post env (trace w) req with
    | inl e => (Exc e, sent)
    | inr resp =>
        if negb (status_code resp =? 200)
        then (Exc (Exception ("Error stopping instance: " ++ text resp)), sent)
        else (Ok tt, sent)
    end.
Proof.
  cbv zeta. unfold stop_instance, bind, get_self, post, stop_request.
  destruct (requests_post env (trace w) _) as [e|resp]; [reflexivity|].
  destruct (negb (status_code resp =? 200)); reflexivity.
Qed.

(** X20: [start_instance] sends one request and changes the client only
    when the server answers 200 with a JSON object that has [launchId]:
    then the value the server sent becomes the launch id and nothing else
    changes. When the request raises, that exception leaves
    [start_instance]; on any other status it raises an exception ending in
    the response body; on a 200 whose body is not JSON it raises the
    decoding error, on one whose JSON is not an object [TypeError], on an
    object without [launchId] [KeyError]. In all these cases the client is
    as before. *)
Theorem start_instance_stores_launch_id (env : Env) (region version save : pyval)
        (ipv6 : bool) (w : World) :
  let req := start_request (visit_secret (self w)) region version save ipv6 in
  let sent := {| self := self w; trace := trace w ++ [EPost (self w) req] |} in
  let out := start_instance env region version save ipv6 w in
  (forall e, requests_post env (trace w) req = inl e -> out = (Exc e, sent)) /\
  (forall resp,
      requests_post env (trace w) req = inr resp -> status_code resp <> 200 ->
      out = (Exc (Exception ("Error starting instance: " ++ text resp)), sent)) /\
  (forall resp,
      requests_post env (trace w) req = inr resp -> status_code resp = 200 ->
      json resp = None ->
      out = (Exc (JSONDecodeError (text resp)), sent)) /\
  (forall resp v,
      requests_post env (trace w) req = inr resp -> status_code resp = 200 ->
      json resp = Some v -> (forall b, v <> PDict b) ->
      out = (Exc TypeError, sent)) /\
  (forall resp b,
      requests_post env (trace w) req = inr resp -> status_code resp = 200 ->
      json resp = Some (PDict b) -> b !! "launchId" = None ->
      out = (Exc (KeyError "launchId"), sent)) /\
  (forall resp b launch,
      requests_post env (trace w) req = inr resp -> status_code resp = 200 ->
      json resp = Some (PDict b) -> b !! "launchId" = Some launch ->
      out = (Ok tt, {| self := set_launch_id launch (self w);
                       trace := trace w ++ [EPost (self w) req] |})).
Proof.
  intros req sent out. subst out. rewrite start_instance_after_post. cbv zeta.
  fold req. fold sent.
  repeat split.
  - intros e ->. reflexivity.
  - intros resp -> Hs. apply Z.eqb_neq in Hs. rewrite Hs. reflexivity.
  - intros resp -> -> ->. reflexivity.
  - intros resp v -> -> -> Hv.
    destruct v as [| | | | |b]; try reflexivity. destruct (Hv b eq_refl).
  - intros resp b -> -> -> ->. reflexivity.
  - intros resp b launch -> -> -> ->. reflexivity.
Qed.

Lemma start_instance_stores_launch_id_witness :
  start_instance launch_env (PStr "eu-west-1") (PStr "1.1.0") (PStr "slot1") true
    (fresh_world synced) =
    (Ok tt,
     {| self := set_launch_id (PStr "L1") synced;
        trace := [EPost synced
                    (start_request PNone (PStr "eu-west-1") (PStr "1.1.0")
                       (PStr "slot1") true)] |}) /\
  start_instance bare_env (PStr "eu-west-1") (PStr "1.1.0") (PStr "slot1") true
    (fresh_world synced) =
    (Exc (JSONDecodeError ""),
     {| self := synced;
        trace := [EPost synced
                    (start_request PNone (PStr "eu-west-1") (PStr "1.1.0")
                       (PStr "slot1") true)] |}).
Proof.
  split.
  - destruct (start_instance_stores_launch_id launch_env (PStr "eu-west-1")
                (PStr "1.1.0") (PStr "slot1") true (fresh_world synced))
      as (_ & _ & _ & _ & _ & H).
    apply (H launch_reply {[ "launchId" := PStr "L1" ]} (PStr "L1")); reflexivity.
  - destruct (start_instance_stores_launch_id bare_env (PStr "eu-west-1")
                (PStr "1.1.0") (PStr "slot1") true (fresh_world synced))
      as (_ & _ & H & _).
    apply (H (reply 200 "")); reflexivity.
Defined.

(** X21: [send_command] and [stop_instance] send the visit secret and the
    launch id the client holds at that moment, change nothing of the client
    whatever the answer, return on status 200, raise an exception ending in
    the response body on any other, and let the exception of a request that
    raised through. After a [start_instance] that the server answered with
    200 and a JSON object holding [launchId], both send the value the
    server gave there; after an [idle] event [stop_instance] sends [None]. *)
Theorem instance_commands_carry_launch_id (env : Env) (w : World) :
  (forall command,
      let req := console_request (visit_secret (self w)) (launch_id (self w)) command in
      let out := send_command env command w in
      snd out = {| self := self w; trace := trace w ++ [EPost (self w) req] |} /\
      (forall e, requests_post env (trace w) req = inl e -> fst out = Exc e) /\
      forall resp,
        requests_post env (trace w) req = inr resp ->
        fst out = if status_code resp =? 200 then Ok tt
                  else Exc (Exception ("Error sending console command: " ++ text resp))) /\
  (let req := stop_request (visit_secret (self w)) (launch_id (self w)) in
   let out := stop_instance env w in
   snd out = {| self := self w; trace := trace w ++ [EPost (self w) req] |} /\
   (forall e, requests_post env (trace w) req = inl e -> fst out = Exc e) /\
   forall resp,
     requests_post env (trace w) req = inr resp ->
     fst out = if status_code resp =? 200 then Ok tt
               else Exc (Exception ("Error stopping instance: " ++ text resp))) /\
  (forall region version save ipv6 resp b launch,
      let start := start_request (visit_secret (self w)) region version save ipv6 in
      let started := set_launch_id launch (self w) in
      let w1 := snd (start_instance env region version save ipv6 w) in
      requests_post env (trace w) start = inr resp ->
      status_code resp = 200 ->
      json resp = Some (PDict b) ->
      b !! "launchId" = Some launch ->
      (forall command,
          snd (send_command env command w1) =
            {| self := started;
               trace := trace w
                        ++ [EPost (self w) start;
                            EPost started
                              (console_request (visit_secret (self w)) launch
                                 command)] |}) /\
      snd (stop_instance env w1) =
        {| self := started;
           trace := trace w
                    ++ [EPost (self w) start;
                        EPost started
                          (stop_request (visit_secret (self w)) launch)] |}) /\
  (forall d, d !! "type" = Some (PStr "idle") ->
             let w1 := snd (dispatch env (PDict d) w) in
             trace (snd (stop_instance env w1)) =
               (trace w1 ++ [EPost (self w1)
                               (stop_request (visit_secret (self w)) PNone)])%list).
Proof.
  split; [|split; [|split]].
  - intros command req out. subst out. rewrite send_command_after_post. cbv zeta.
    fold req. destruct (requests_post env (trace w) req) as [e|resp].
    + split; [reflexivity|]. split; [|discriminate].
      intros e' He. injection He as <-. reflexivity.
    + destruct (status_code resp =? 200) eqn:Hs; cbn [negb snd fst];
        (split; [reflexivity|]); (split; [discriminate|]);
        intros r Hr; injection Hr as <-; rewrite Hs; reflexivity.
  - intros req out. subst out. rewrite stop_instance_after_post. cbv zeta.
    fold req. destruct (requests_post env (trace w) req) as [e|resp].
    + split; [reflexivity|]. split; [|discriminate].
      intros e' He. injection He as <-. reflexivity.
    + destruct (status_code resp =? 200) eqn:Hs; cbn [negb snd fst];
        (split; [reflexivity|]); (split; [discriminate|]);
        intros r Hr; injection Hr as <-; rewrite Hs; reflexivity.
  - intros region version save ipv6 resp b launch start started w1 Hp Hs Hj Hb.
    assert (Hw1 : w1 = {| self := started;
                          trace := trace w ++ [EPost (self w) start] |}).
    { unfold w1. rewrite start_instance_after_post. cbv zeta. fold start.
      rewrite Hp, Hs, Hj, Hb. reflexivity. }
    assert (Hsecret : visit_secret started = visit_secret (self w))
      by (unfold started; destruct (self w); reflexivity).
    assert (Hlaunch : launch_id started = launch)
      by (unfold started; destruct (self w); reflexivity).
    rewrite Hw1. split.
    + intros command. rewrite send_command_after_post. cbv zeta. cbn [self trace].
      rewrite Hsecret, Hlaunch, <- app_assoc. cbn [app].
      match goal with
      | |- context [requests_post env ?t ?r] =>
          destruct (requests_post env t r) as [e|r']
      end; [reflexivity|].
      destruct (negb (status_code r' =? 200)); reflexivity.
    + rewrite stop_instance_after_post. cbv zeta. cbn [self trace].
      rewrite Hsecret, Hlaunch, <- app_assoc. cbn [app].
      match goal with
      | |- context [requests_post env ?t ?r] =>
          destruct (requests_post env t r) as [e|r']
      end; [reflexivity|].
      destruct (negb (status_code r' =? 200)); reflexivity.
  - intros d Ht w1. unfold w1. rewrite (dispatch_idle env d w Ht). cbn [snd].
    rewrite stop_instance_after_post. cbv zeta. cbn [self trace].
    destruct (requests_post env (trace w) _) as [e|resp]; [reflexivity|].
    destruct (negb (status_code resp =? 200)); reflexivity.
Qed.

Lemma instance_commands_carry_launch_id_witness :
  snd (send_command launch_env (PStr "/save")
         (snd (start_instance launch_env (PStr "eu-west-1") (PStr "1.1.0")
                 (PStr "slot1") true (fresh_world (init PNone))))) =
    {| self := set_launch_id (PStr "L1") (init PNone);
       trace := [EPost (init PNone)
                   (start_request PNone (PStr "eu-west-1") (PStr "1.1.0")
                      (PStr "slot1") true);
                 EPost (set_launch_id (PStr "L1") (init PNone))
                   (console_request PNone (PStr "L1") (PStr "/save"))] |}.
Proof.
  destruct (instance_commands_carry_launch_id launch_env (fresh_world (init PNone)))
    as (_ & _ & H & _).
  destruct (H (PStr "eu-west-1") (PStr "1.1.0") (PStr "slot1") true launch_reply
              {[ "launchId" := PStr "L1" ]} (PStr "L1")) as [Hc _];
    [reflexivity..|].
  exact (Hc (PStr "/save")).
Defined.

(** ** The remaining session transitions *)

(** X22: an [info] event whose line the pattern matches makes the first
    match the server address and the status STARTING; a line without a
    match changes nothing; an [info] event whose [line] is absent or not a
    string raises [TypeError], which ends the receive loop. *)
Theorem info_event_selects_connection (env : Env) (d : gmap string pyval)
        (w : World) :
  d !! "type" = Some (PStr "info") ->
  let pattern := "selecting connection (\d+\.\d+\.\d+\.\d+:\d+)" in
  (forall line address others,
      d !! "line" = Some (PStr line) ->
      re_findall env pattern line = address :: others ->
      dispatch env (PDict d) w =
        (Ok tt, {| self := set_server_status STARTING
                             (set_server_address (PStr address) (self w));
                   trace := trace w |})) /\
  (forall line,
      d !! "line" = Some (PStr line) -> re_findall env pattern line = [] ->
      dispatch env (PDict d) w = (Ok tt, w)) /\
  ((forall line, d !! "line" <> Some (PStr line)) ->
   dispatch env (PDict d) w = (Exc TypeError, w) /\
   forall message rest w0,
     json_loads env message = Some (PDict d) ->
     sequencer (PDict d) (emit (ERecv message) w0) = (Ok true, w) ->
     connect_loop env (message :: rest) w0 = ([], Raised TypeError, w)).
Proof.
  intros Ht pattern.
  assert (Hd : dispatch env (PDict d) w =
               match dict_get d "line" with
               | PStr l =>
                   match re_findall env pattern l with
                   | [] => (Ok tt, w)
                   | address :: _ =>
                       (Ok tt, {| self := set_server_status STARTING
                                            (set_server_address (PStr address) (self w));
                                  trace := trace w |})
                   end
               | _ => (Exc TypeError, w)
               end).
  { unfold dispatch, bind at 1, subscript, of_option. rewrite Ht. cbn [ret].
    cbn [py_eq_str String.eqb Ascii.eqb Bool.eqb]. cbv iota.
    unfold bind at 1, py_get, ret. fold pattern.
    destruct (dict_get d "line"); try reflexivity.
    destruct (re_findall env pattern s); reflexivity. }
  split; [|split].
  - intros line address others Hl Hm. rewrite Hd. unfold dict_get. rewrite Hl, Hm.
    reflexivity.
  - intros line Hl Hm. rewrite Hd. unfold dict_get. rewrite Hl, Hm. reflexivity.
  - intros Hn.
    assert (He : dispatch env (PDict d) w = (Exc TypeError, w)).
    { rewrite Hd. unfold dict_get. destruct (d !! "line") as [[| | |l| |]|] eqn:Hl;
        try reflexivity. exfalso. apply (Hn l). reflexivity. }
    split; [exact He|]. intros message rest w0 Hdec Hseq. cbn [connect_loop].
    rewrite (connect_body_accepted env message (PDict d) _ w Hdec Hseq).
    unfold bind at 1. rewrite He. reflexivity.
Qed.

Lemma info_event_selects_connection_witness :
  dispatch info_env info_event (fresh_world (init PNone)) =
    (Ok tt, {| self := set_server_status STARTING
                         (set_server_address (PStr "10.0.0.5:9000") (init PNone));
               trace := [] |}).
Proof.
  destruct (info_event_selects_connection info_env
              {[ "type" := PStr "info";
                 "line" := PStr "selecting connection 10.0.0.5:9000 for instance" ]}
              (fresh_world (init PNone))) as (H & _); [reflexivity|].
  apply (H "selecting connection 10.0.0.5:9000 for instance" "10.0.0.5:9000" []);
    reflexivity.
Defined.

Lemma same_socket_refl (c : FZClient) : same_socket c c.
Proof. reflexivity. Qed.

Lemma same_socket_trans (a b c : FZClient) :
  same_socket a b -> same_socket b c -> same_socket a c.
Proof. unfold same_socket. congruence. Qed.

Lemma sequencer_socket (data : pyval) : preserves same_socket (sequencer data).
Proof.
  unfold sequencer. frame same_socket_refl same_socket_trans; try reflexivity.
Qed.

Lemma dispatch_socket (env : Env) (data : pyval) :
  preserves same_socket (dispatch env data).
Proof.
  unfold dispatch. frame same_socket_refl same_socket_trans; try reflexivity.
Qed.

(** X24: [connect] first opens the socket. When that fails nothing is
    received and the object is untouched, the socket still [None]; when it
    succeeds the socket is recorded before the first frame is read and is
    still the same when the loop stops, however it stops. *)
Theorem connect_opens_socket_first (env : Env) (frames : list string) (w : World) :
  let uri := "wss://factorio.zone/ws" in
  (forall e, ws_connect env (trace w) uri = Some e ->
             connect env frames w =
               ([], Raised e, {| self := self w; trace := trace w ++ [EConnect uri] |})) /\
  (ws_connect env (trace w) uri = None ->
   socket (self (snd (connect env frames w))) = Some uri /\
   connect env frames w =
     connect_loop env frames
       {| self := set_socket (Some uri) (self w);
          trace := trace w ++ [EConnect uri] |}).
Proof.
  intros uri. split.
  - intros e He. unfold connect. cbv zeta.
    change ("wss://" ++ FACTORIO_ZONE_ENDPOINT ++ "/ws")%string with uri.
    rewrite He. reflexivity.
  - intros Hc. unfold connect. cbv zeta.
    change ("wss://" ++ FACTORIO_ZONE_ENDPOINT ++ "/ws")%string with uri.
    rewrite Hc. split; [|reflexivity].
    rewrite (preserves_connect_loop same_socket same_socket_refl same_socket_trans
               env sequencer_socket (dispatch_socket env) frames). reflexivity.
Qed.

Lemma connect_opens_socket_first_witness :
  connect info_env ["info"] (fresh_world (init PNone)) =
    ([], Raised ConnectionError,
     {| self := init PNone; trace := [EConnect "wss://factorio.zone/ws"] |}).
Proof.
  apply (proj1 (connect_opens_socket_first info_env ["info"] (fresh_world (init PNone)))
           ConnectionError).
  reflexivity.
Defined.

Lemma offline_kept_refl (c : FZClient) : offline_kept c c.
Proof. intros H. exact H. Qed.

Lemma offline_kept_trans (a b c : FZClient) :
  offline_kept a b -> offline_kept b c -> offline_kept a c.
Proof. unfold offline_kept. auto. Qed.

Lemma sequencer_offline (data : pyval) : preserves offline_kept (sequencer data).
Proof.
  unfold sequencer. frame offline_kept_refl offline_kept_trans; try (intros H; exact H).
Qed.

(** The branches that assign one attribute of the four, or none, keep the
    property step by step; the others are run to their end. *)
Ltac offline_by_steps w HI :=
  refine (preserves_at offline_kept _ w _ HI);
  frame offline_kept_refl offline_kept_trans; try (intros H; exact H).

Ltac offline_by_running :=
  unfold bind, modify, py_get, ret, offline_ok; cbn;
  first [ intros H; discriminate H | intros _; repeat split ].

Lemma dispatch_offline (env : Env) (data : pyval) :
  preserves offline_kept (dispatch env data).
Proof.
  intros w HI. unfold dispatch, bind at 1, subscript, of_option.
  destruct data as [| | | | |d]; try exact HI.
  destruct (d !! "type") as [t|]; [|exact HI]. cbn [ret].
  destruct (py_eq_str t "visit"); [offline_by_steps w HI|].
  destruct (py_eq_str t "options"); [offline_by_steps w HI|].
  destruct (py_eq_str t "mods"); [offline_by_steps w HI|].
  destruct (py_eq_str t "idle"); [offline_by_running|].
  destruct (py_eq_str t "starting"); [offline_by_running|].
  destruct (py_eq_str t "stopping"); [offline_by_running|].
  destruct (py_eq_str t "running"); [offline_by_running|].
  destruct (py_eq_str t "slot"); [offline_by_steps w HI|].
  destruct (py_eq_str t "log"); [offline_by_steps w HI|].
  destruct (py_eq_str t "info").
  { unfold bind, py_get, ret. destruct (dict_get d "line"); try exact HI.
    destruct (re_findall env _ s); [exact HI|]. offline_by_running. }
  destruct (py_eq_str t "warn"), (py_eq_str t "error"); exact HI.
Qed.

(** X23: while the receive loop runs, a client that shows the server
    OFFLINE holds nothing of a running instance: if OFFLINE implies not
    running, no launch id and no server address when the loop starts (as on
    a new client), it does when the loop stops, whatever frames came. *)
Theorem offline_holds_no_instance (env : Env) (frames : list string) (w : World) :
  offline_ok (self w) ->
  offline_ok (self (snd (connect_loop env frames w))).
Proof.
  apply (preserves_connect_loop offline_kept offline_kept_refl offline_kept_trans
           env sequencer_offline (dispatch_offline env) frames w).
Qed.

Lemma offline_holds_no_instance_witness :
  offline_ok
    (self (snd (connect_loop demo_env ["starting#4"; "running#5"; "idle#7"]
                  (fresh_world (init PNone))))).
Proof.
  apply (offline_holds_no_instance demo_env ["starting#4"; "running#5"; "idle#7"]
           (fresh_world (init PNone))).
  intros _. repeat split.
Defined.
